(** * The httpx command-line client ([httpx/_main.py])

    A shallow embedding of the request/response pipeline of the command-line
    client: header rendering, body rendering, the download loop, the redirect
    hook and [main] with its exit status.

    Console output, file writes, progress updates and the dispatch of the
    request are recorded as a trace of events; a Python exception is an
    explicit result. *)

From Stdlib Require Import ZArith List String Ascii DecimalString Lia Bool Sorted.
From Stdlib.Strings Require Import Byte.
Import ListNotations.
Open Scope string_scope.

(** ** Python values *)

(** A Python [str].  A character stands for the code point of the same
    number. *)
Definition str := string.

(** A Python [bytes] object. *)
Definition bytes := list byte.

(** The one-character strings for a line feed, a double quote and a
    backslash. *)
Definition nl : str := String (ascii_of_nat 10) EmptyString.
Definition dquote : str := String (ascii_of_nat 34) EmptyString.
Definition backslash : str := String (ascii_of_nat 92) EmptyString.

(** [str(n)] for an [int]; also what an f-string does with an [int] field. *)
Definition str_of_int (n : Z) : str := NilZero.string_of_int (Z.to_int n).

(** [sep.join(lines)] *)
Definition join (sep : str) (lines : list str) : str := String.concat sep lines.

(** Truth value of a [str] / [bytes] / tuple / list: non-empty. *)
Definition str_truthy (s : str) : bool :=
  match s with EmptyString => false | String _ _ => true end.

Definition seq_truthy {A : Type} (l : list A) : bool :=
  match l with [] => false | _ :: _ => true end.

(** Truth value of an optional argument: [None] is false. *)
Definition opt_truthy {A : Type} (truthy : A -> bool) (o : option A) : bool :=
  match o with None => false | Some a => truthy a end.

(** ** Exceptions and effects *)

Inductive Exception : Type :=
| RequestError (name message : str)
    (* an instance of a subclass of httpx.RequestError:
       [type(exc).__name__] and [str(exc)] *)
| UnicodeDecodeError
| ValueError
| SystemExit (code : Z).

Inductive Result (A : Type) : Type :=
| Ok (a : A)
| Raise (e : Exception).
Arguments Ok {A} a.
Arguments Raise {A} e.

Definition rbind {A B : Type} (r : Result A) (k : A -> Result B) : Result B :=
  match r with
  | Ok a => k a
  | Raise e => Raise e
  end.

Notation "x <~ c ;; k" := (rbind c (fun x => k))
  (at level 61, c at next level, right associativity).

(** ** Requests and responses, as [_main.py] uses them *)

(** [httpx.Headers]: [raw] is the list of (name, value) byte pairs in wire
    order; [get] is the case-insensitive lookup returning text. *)
Record Headers : Type := {
  raw : list (bytes * bytes);
  get : str -> option str
}.

(** [httpx.URL.raw] is the tuple (scheme, host, port, path). *)
Record URL : Type := {
  raw_scheme : bytes;
  raw_host : bytes;
  raw_port : option Z;
  raw_path : bytes
}.

(** [request.url.raw[-1]] *)
Definition url_raw_last (u : URL) : bytes := raw_path u.

(** The attributes of [httpx.Request] that [_main.py] reads. *)
Record Request : Type := {
  method : str;
  url : URL;
  request_headers : Headers
}.

(** [bytes.decode("ascii")]: raises [UnicodeDecodeError] on a byte above
    0x7f. *)
Definition is_ascii_byte (b : byte) : bool := (Byte.to_N b <? 128)%N.

Definition decode_ascii (b : bytes) : Result str :=
  if forallb is_ascii_byte b
  then Ok (string_of_list_ascii (map ascii_of_byte b))
  else Raise UnicodeDecodeError.

(** [f"{name.decode('ascii')}: {value.decode('ascii')}"] *)
Definition header_line (h : bytes * bytes) : Result str :=
  let (name, value) := h in
  n <~ decode_ascii name ;;
  v <~ decode_ascii value ;;
  Ok (n ++ ": " ++ v).

(** The list comprehension over [headers.raw]. *)
Fixpoint header_lines (hs : list (bytes * bytes)) : Result (list str) :=
  match hs with
  | [] => Ok []
  | h :: rest =>
      l <~ header_line h ;;
      ls <~ header_lines rest ;;
      Ok (l :: ls)
  end.

Definition request_line (request : Request) (target : str) : str :=
  method request ++ " " ++ target ++ " HTTP/1.1".

Definition format_request_headers (request : Request) : Result str :=
  target <~ decode_ascii (url_raw_last (url request)) ;;
  ls <~ header_lines (raw (request_headers request)) ;;
  Ok (join nl (request_line request target :: ls)).

(** ** JSON values and [json.dumps(data, indent=4)] *)

(** A Python [float], observed by this program only through its truth value
    and through the text [json.dumps] writes for it. *)
Record PyFloat : Type := {
  float_repr : str;
  float_truthy : bool
}.

(** What [json.loads] builds: a [dict] keeps its keys in insertion order. *)
#[warnings="-register-all"]
Inductive JSON : Type :=
| JNull
| JBool (b : bool)
| JInt (n : Z)
| JFloat (f : PyFloat)
| JStr (s : str)
| JList (items : list JSON)
| JDict (items : list (str * JSON)).

(** [bool(value)] *)
Definition json_truthy (v : JSON) : bool :=
  match v with
  | JNull => false
  | JBool b => b
  | JInt n => negb (n =? 0)%Z
  | JFloat f => float_truthy f
  | JStr s => str_truthy s
  | JList items => seq_truthy items
  | JDict items => seq_truthy items
  end.

Definition hex_digit (n : N) : ascii :=
  match n with
  | 0%N => "0" | 1%N => "1" | 2%N => "2" | 3%N => "3" | 4%N => "4"
  | 5%N => "5" | 6%N => "6" | 7%N => "7" | 8%N => "8" | 9%N => "9"
  | 10%N => "a" | 11%N => "b" | 12%N => "c" | 13%N => "d" | 14%N => "e"
  | _ => "f"
  end%char.

(** The four-hex-digit escape of code point [n]. *)
Definition escape_u (n : N) : str :=
  backslash ++ "u" ++ String (hex_digit (n / 4096 mod 16))
         (String (hex_digit (n / 256 mod 16))
         (String (hex_digit (n / 16 mod 16))
         (String (hex_digit (n mod 16)) EmptyString))).

(** One character under [ESCAPE_ASCII] / [ESCAPE_DCT] of [json.encoder]. *)
Definition escape_char (c : ascii) : str :=
  let n := N_of_ascii c in
  if (n =? 34)%N then backslash ++ dquote
  else if (n =? 92)%N then backslash ++ backslash
  else if (n =? 8)%N then backslash ++ "b"
  else if (n =? 12)%N then backslash ++ "f"
  else if (n =? 10)%N then backslash ++ "n"
  else if (n =? 13)%N then backslash ++ "r"
  else if (n =? 9)%N then backslash ++ "t"
  else if ((32 <=? n) && (n <=? 126))%N then String c EmptyString
  else escape_u n.

Fixpoint escape_chars (s : str) : str :=
  match s with
  | EmptyString => EmptyString
  | String c rest => escape_char c ++ escape_chars rest
  end.

(** [py_encode_basestring_ascii] *)
Definition encode_basestring_ascii (s : str) : str :=
  dquote ++ escape_chars s ++ dquote.

(** [' ' * n] *)
Fixpoint spaces (n : nat) : str :=
  match n with
  | O => EmptyString
  | S k => String " " (spaces k)
  end.

(** [_iterencode] of [json.encoder] with [_indent = ' ' * indent],
    [_item_separator = ','] and [_key_separator = ': ']. *)
Fixpoint iterencode (indent level : nat) (o : JSON) : str :=
  match o with
  | JNull => "null"
  | JBool true => "true"
  | JBool false => "false"
  | JInt n => str_of_int n
  | JFloat f => float_repr f
  | JStr s => encode_basestring_ascii s
  | JList [] => "[]"
  | JList items =>
      let newline_indent := nl ++ spaces (indent * S level) in
      "[" ++ newline_indent
          ++ join ("," ++ newline_indent) (map (iterencode indent (S level)) items)
          ++ nl ++ spaces (indent * level) ++ "]"
  | JDict [] => "{}"
  | JDict items =>
      let newline_indent := nl ++ spaces (indent * S level) in
      "{" ++ newline_indent
          ++ join ("," ++ newline_indent)
               (map (fun kv => let '(k, v) := kv in
                               encode_basestring_ascii k ++ ": "
                                 ++ iterencode indent (S level) v) items)
          ++ nl ++ spaces (indent * level) ++ "}"
  end.

(** [json.dumps(data, indent=indent)] *)
Definition json_dumps (data : JSON) (indent : nat) : str :=
  iterencode indent 0 data.

(** ** Responses *)

(** The attributes of [httpx.Response] that [_main.py] reads. *)
Record Response : Type := {
  http_version : str;
  status_code : Z;
  reason_phrase : str;
  headers : Headers;
  has_redirect_location : bool;
  (* The lazy byte sequence: the chunks [iter_bytes()] delivers, and the
     [RequestError] (name, message) it raises once they are delivered, if the
     transfer breaks off. *)
  stream : list bytes;
  stream_error : option (str * str);
  (* [response.text], the decoded body. *)
  text : str;
  (* [response.json()]: [None] stands for the [ValueError]
     ([json.JSONDecodeError]) a failed parse raises. *)
  json : option JSON
}.

(** Modelled from the spec: [Response.is_success], defined in [_models.py].
    The spec (section 3, ExitOutcome; section 4.2 step 6) calls a response a
    success when its status is below 400, and a failure otherwise. *)
Definition is_success (response : Response) : bool :=
  (status_code response <? 400)%Z.

(** Modelled from the spec: [Response.json] of [_models.py] (section 6:
    "best-effort parse, raises on malformed input"); the error of a failed
    parse is a [ValueError], the class [print_response] catches. *)
Definition response_json (response : Response) : Result JSON :=
  match json response with
  | Some data => Ok data
  | None => Raise ValueError
  end.

(** A file object opened by [click.File]; [name] is its path. *)
Record BinaryIO : Type := {
  name : str
}.

(** The keyword arguments of [Client(...)] in [main]. *)
Record ClientConfig : Type := {
  cfg_proxies : option str;
  cfg_timeout : PyFloat;
  cfg_verify : bool;
  cfg_http2 : bool
}.

(** The arguments of [client.stream(...)] in [main]. *)
Record StreamCall : Type := {
  call_method : str;
  call_url : str;
  call_params : list (str * str);
  call_content : option str;
  call_data : list (str * str);
  call_files : list (str * BinaryIO);
  call_json : option JSON;
  call_headers : list (str * str);
  call_cookies : list (str * str);
  call_auth : option (str * str);
  call_follow_redirects : bool
}.

(** [dict(pairs)]: a later pair replaces the value of an earlier one with the
    same key, which keeps its place. *)
Fixpoint dict_set (d : list (str * str)) (k v : str) : list (str * str) :=
  match d with
  | [] => [(k, v)]
  | (k', v') :: rest =>
      if String.eqb k' k then (k', v) :: rest else (k', v') :: dict_set rest k v
  end.

Definition dict (pairs : list (str * str)) : list (str * str) :=
  fold_left (fun d kv => dict_set d (fst kv) (snd kv)) pairs [].

(** What the program does to the outside world. *)
Inductive Event : Type :=
| ConsolePrintSyntax (code lexer : str)
    (* console.print(rich.syntax.Syntax(code, lexer, ...)) *)
| ConsolePrint (text : str)
    (* console.print(text) *)
| ProgressAddTask (description : str) (total : option Z)
| ProgressUpdate (completed : nat)
| FileWrite (file : BinaryIO) (chunk : bytes)
| ClientStream (config : ClientConfig) (call : StreamCall).
    (* client.stream(...) called on Client(...): the network call *)

Definition Trace := list Event.

(** A computation: the events it produced, and its value or the exception
    that ended it. *)
Definition M (A : Type) : Type := (Trace * Result A)%type.

Definition ret {A : Type} (a : A) : M A := ([], Ok a).

Definition bind {A B : Type} (m : M A) (k : A -> M B) : M B :=
  match m with
  | (t, Ok a) => let (t', r) := k a in ((t ++ t')%list, r)
  | (t, Raise e) => (t, Raise e)
  end.

Definition emit (e : Event) : M unit := ([e], Ok tt).

Definition raise {A : Type} (e : Exception) : M A := ([], Raise e).

Definition lift {A : Type} (r : Result A) : M A := ([], r).

(** [try: m  except ...: handler]; [handler e = None] when no clause matches
    [e]. *)
Definition try_except {A : Type} (m : M A) (handler : Exception -> option (M A))
  : M A :=
  match m with
  | (t, Ok a) => (t, Ok a)
  | (t, Raise e) =>
      match handler e with
      | Some h => let (t', r) := h in ((t ++ t')%list, r)
      | None => (t, Raise e)
      end
  end.

Definition rtry_except {A : Type} (r : Result A)
  (handler : Exception -> option (Result A)) : Result A :=
  match r with
  | Ok a => Ok a
  | Raise e =>
      match handler e with
      | Some h => h
      | None => Raise e
      end
  end.

Notation "x <- c ;; k" := (bind c (fun x => k))
  (at level 61, c at next level, right associativity).
Notation "c ;; k" := (bind c (fun _ => k))
  (at level 61, right associativity).

(** [sys.exit(code)] *)
Definition sys_exit {A : Type} (code : Z) : M A := raise (SystemExit code).

(** [for x in xs: f(x)] *)
Fixpoint for_each {A : Type} (xs : list A) (f : A -> M unit) : M unit :=
  match xs with
  | [] => ret tt
  | x :: rest => f x ;; for_each rest f
  end.

(** ** Text helpers *)

(** [s.partition(";")[0]] *)
Fixpoint before_semicolon (s : str) : str :=
  match s with
  | EmptyString => EmptyString
  | String c rest =>
      if Ascii.eqb c ";" then EmptyString else String c (before_semicolon rest)
  end.

(** [c.isspace()] *)
Definition is_space (c : ascii) : bool :=
  let n := N_of_ascii c in
  (((9 <=? n) && (n <=? 13)) || ((28 <=? n) && (n <=? 32))
   || (n =? 133) || (n =? 160))%N.

Fixpoint lstrip (s : str) : str :=
  match s with
  | EmptyString => EmptyString
  | String c rest => if is_space c then lstrip rest else s
  end.

Fixpoint rstrip (s : str) : str :=
  match s with
  | EmptyString => EmptyString
  | String c rest =>
      match rstrip rest with
      | EmptyString => if is_space c then EmptyString else String c EmptyString
      | r => String c r
      end
  end.

(** [s.strip()] *)
Definition strip (s : str) : str := rstrip (lstrip s).

Definition lower_char (c : ascii) : ascii :=
  let n := N_of_ascii c in
  if (((65 <=? n) && (n <=? 90))
      || ((192 <=? n) && (n <=? 222) && negb (n =? 215)))%N
  then ascii_of_N (n + 32)
  else c.

(** [s.lower()] *)
Fixpoint lower (s : str) : str :=
  match s with
  | EmptyString => EmptyString
  | String c rest => String (lower_char c) (lower rest)
  end.

(** ** Presentation *)

Definition status_line (response : Response) : str :=
  http_version response ++ " " ++ str_of_int (status_code response)
    ++ " " ++ reason_phrase response.

Definition format_response_headers (response : Response) : Result str :=
  ls <~ header_lines (raw (headers response)) ;;
  Ok (join nl (status_line response :: ls)).

Definition print_request_headers (request : Request) : M unit :=
  http_text <- lift (format_request_headers request) ;;
  emit (ConsolePrintSyntax http_text "http") ;;
  emit (ConsolePrintSyntax "" "http").

Definition print_response_headers (response : Response) : M unit :=
  http_text <- lift (format_response_headers response) ;;
  emit (ConsolePrintSyntax http_text "http").

Definition print_delimiter : M unit :=
  emit (ConsolePrintSyntax "" "http").

(** Modelled from the spec: [Response.read] of [_models.py] (section 6:
    "force full drain").  It consumes the lazy byte sequence to its end and
    returns [response.content]; a transfer that breaks off raises the
    [RequestError] of the stream. *)
Definition read (response : Response) : M bytes :=
  match stream_error response with
  | None => ret (List.concat (stream response))
  | Some (name, message) => raise (RequestError name message)
  end.

(** Modelled from the spec: [Response.num_bytes_downloaded], kept by
    [Response.iter_bytes] in [_models.py].  The spec (section 3) describes it
    as the cumulative count of bytes consumed so far from the lazy byte
    sequence: the iterator adds the size of each chunk as it yields it. *)
Definition advance (num_bytes_downloaded : nat) (chunk : bytes) : nat :=
  num_bytes_downloaded + List.length chunk.

(** The loop of [download_response] over the chunks still to come;
    [num_bytes_downloaded] is the counter of the response when the loop is
    entered. *)
Fixpoint download_loop (download : BinaryIO) (chunks : list bytes)
  (num_bytes_downloaded : nat) : M unit :=
  match chunks with
  | [] => ret tt
  | chunk :: rest =>
      let num_bytes_downloaded := advance num_bytes_downloaded chunk in
      emit (FileWrite download chunk) ;;
      emit (ProgressUpdate num_bytes_downloaded) ;;
      download_loop download rest num_bytes_downloaded
  end.

(** [for chunk in response.iter_bytes(): ...] on a response not read yet:
    the counter starts from 0, and a transfer that breaks off raises once the
    chunks received have been handled. *)
Definition iter_download (response : Response) (download : BinaryIO) : M unit :=
  download_loop download (stream response) 0 ;;
  match stream_error response with
  | None => ret tt
  | Some (name, message) => raise (RequestError name message)
  end.

Section Program.

(** [pygments.lexers.get_lexer_for_mimetype(mime).name]; [None] stands for
    [pygments.util.ClassNotFound]. *)
Variable get_lexer_for_mimetype : str -> option str.

(** The builtin [int(s)] on a [str]; [None] stands for [ValueError]. *)
Variable int : str -> option Z.

Definition get_lexer_for_response (response : Response) : str :=
  match get (headers response) "Content-Type" with
  | Some content_type =>
      let mime_type := before_semicolon content_type in
      match get_lexer_for_mimetype (strip mime_type) with
      | Some lexer_name => lexer_name
      | None => ""
      end
  | None => ""
  end.

(** The text [print_response] hands to the console when a lexer is found. *)
Definition response_text (lexer_name : str) (response : Response) : Result str :=
  if String.eqb (lower lexer_name) "json" then
    rtry_except
      (data <~ response_json response ;;
       Ok (json_dumps data 4))
      (fun exc => match exc with
                  | ValueError => Some (Ok (text response))
                  | _ => None
                  end)
  else Ok (text response).

Definition print_response (response : Response) : M unit :=
  let lexer_name := get_lexer_for_response response in
  if str_truthy lexer_name then
    text <- lift (response_text lexer_name response) ;;
    emit (ConsolePrintSyntax text lexer_name)
  else
    emit (ConsolePrint (text response)).

Definition print_redirects (response : Response) : M unit :=
  if has_redirect_location response then
    read response ;;
    print_response_headers response ;;
    print_response response
  else ret tt.

Definition download_response (response : Response) (download : BinaryIO)
  : M unit :=
  emit (ConsolePrintSyntax "" "http") ;;
  let content_length := get (headers response) "Content-Length" in
  total <- (if opt_truthy str_truthy content_length then
              match content_length with
              | Some s =>
                  match int s with
                  | Some n => ret (Some n)
                  | None => raise ValueError
                  end
              | None => ret None
              end
            else ret None) ;;
  let description := "Downloading [bold]" ++ name download in
  emit (ProgressAddTask description total) ;;
  iter_download response download.

(** *** The client *)

(** [event_hooks]: the callables under the keys "request" and "response". *)
Record EventHooks : Type := {
  hooks_request : list (Request -> M unit);
  hooks_response : list (Response -> M unit)
}.

(** What the transport does with one stream call: the request it builds,
    the [RequestError] (name, message) it raises before any response
    headers arrive or the response it yields, and the responses of the
    redirect chain it hands to the on-response hooks. *)
Record Exchange : Type := {
  sent : Request;
  outcome : (str * str) + Response;
  hooked : list Response
}.

Definition Transport : Type := ClientConfig -> StreamCall -> Exchange.

Variable transport : Transport.

(** Modelled from the spec: [Client.stream] of [_client.py], as the context
    manager of [with client.stream(...) as response: block].  Following
    section 4.2: the on-request hooks fire in registration order before the
    request is dispatched (step 2); a transport failure before the headers
    raises (step 7); otherwise the block runs on the top-level response
    (steps 3 and 4) and, once its body is drained, the on-response hooks
    fire in registration order (step 5).  The value is the response bound
    by [as]. *)
Definition client_stream (config : ClientConfig) (event_hooks : EventHooks)
  (call : StreamCall) (block : Response -> M unit) : M Response :=
  emit (ClientStream config call) ;;
  let exchange := transport config call in
  for_each (hooks_request event_hooks) (fun hook => hook (sent exchange)) ;;
  match outcome exchange with
  | inl (name, message) => raise (RequestError name message)
  | inr response =>
      block response ;;
      for_each (hooked exchange)
        (fun hop => for_each (hooks_response event_hooks) (fun hook => hook hop)) ;;
      ret response
  end.

(** *** The command *)

(** The parameters of [main], as click passes them. *)
Record Options : Type := {
  opt_url : str;
  opt_method : option str;
  opt_params : list (str * str);
  opt_content : option str;
  opt_data : list (str * str);
  opt_files : list (str * BinaryIO);
  opt_json : option JSON;
  opt_headers : list (str * str);
  opt_cookies : list (str * str);
  opt_auth : option (str * str);
  opt_proxies : option str;
  opt_timeout : PyFloat;
  opt_follow_redirects : bool;
  opt_verify : bool;
  opt_http2 : bool;
  opt_download : option BinaryIO;
  opt_verbose : bool
}.

(** ["POST" if content or data or files or json else "GET"] *)
Definition default_method (content : option str) (data : list (str * str))
  (files : list (str * BinaryIO)) (json : option JSON) : str :=
  if opt_truthy str_truthy content || seq_truthy data || seq_truthy files
     || opt_truthy json_truthy json
  then "POST" else "GET".

(** Lines 393-394: [if not method: method = ...]. *)
Definition resolve_method (method : option str) (content : option str)
  (data : list (str * str)) (files : list (str * BinaryIO))
  (json : option JSON) : str :=
  match method with
  | Some m => if str_truthy m then m else default_method content data files json
  | None => default_method content data files json
  end.

(** Lines 396-400. *)
Definition make_event_hooks (verbose follow_redirects : bool) : EventHooks :=
  {| hooks_request := if verbose then [print_request_headers] else [];
     hooks_response := if follow_redirects then [print_redirects] else [] |}.

Definition client_config (o : Options) : ClientConfig :=
  {| cfg_proxies := opt_proxies o;
     cfg_timeout := opt_timeout o;
     cfg_verify := opt_verify o;
     cfg_http2 := opt_http2 o |}.

Definition stream_call (o : Options) : StreamCall :=
  {| call_method := resolve_method (opt_method o) (opt_content o) (opt_data o)
                      (opt_files o) (opt_json o);
     call_url := opt_url o;
     call_params := opt_params o;
     call_content := opt_content o;
     call_data := dict (opt_data o);
     call_files := opt_files o;
     call_json := opt_json o;
     call_headers := opt_headers o;
     call_cookies := dict (opt_cookies o);
     call_auth := opt_auth o;
     call_follow_redirects := opt_follow_redirects o |}.

(** Lines 423-431: the block under [with client.stream(...) as response]. *)
Definition stream_block (download : option BinaryIO) (response : Response)
  : M unit :=
  print_response_headers response ;;
  match download with
  | Some download => download_response response download
  | None =>
      content <- read response ;;
      if seq_truthy content then
        print_delimiter ;;
        print_response response
      else ret tt
  end.

Definition main (o : Options) : M unit :=
  let event_hooks := make_event_hooks (opt_verbose o) (opt_follow_redirects o) in
  response <-
    try_except
      (client_stream (client_config o) event_hooks (stream_call o)
         (stream_block (opt_download o)))
      (fun exc =>
         match exc with
         | RequestError name message =>
             Some (emit (ConsolePrint (name ++ ": " ++ message)) ;;
                   sys_exit 1)
         | _ => None
         end) ;;
  sys_exit (if is_success response then 0 else 1).

End Program.

Arguments main get_lexer_for_mimetype int transport o : assert.

(** ** Option callbacks *)

(** What a click callback does with an option value: it returns the value
    to pass to the command or raises [click.BadParameter(message)]. *)
Inductive Callback (A : Type) : Type :=
| Accepted (value : A)
| BadParameter (message : str).
Arguments Accepted {A} value.
Arguments BadParameter {A} message.

Section Callbacks.

(** [json.loads(text)]; [None] stands for [json.JSONDecodeError]. *)
Variable json_loads : str -> option JSON.

(** The callback of [--json].  The value a command receives is [None] when
    the option is absent; [json.loads] gives the same [None] for the text
    "null". *)
Definition validate_json (value : option str) : Callback (option JSON) :=
  match value with
  | None => Accepted None
  | Some text =>
      match json_loads text with
      | Some JNull => Accepted None
      | Some data => Accepted (Some data)
      | None => BadParameter "Not valid JSON"
      end
  end.

End Callbacks.

(** ** Sample inputs *)

Module Examples.

(** [s.encode("latin-1")] *)
Definition b (s : str) : bytes := map byte_of_ascii (list_ascii_of_string s).

(** Headers received as text pairs; [get] returns the first value whose name
    matches without regard to case. *)
Definition make_headers (hs : list (str * str)) : Headers :=
  {| raw := map (fun h => (b (fst h), b (snd h))) hs;
     get := fun key =>
       option_map snd
         (find (fun h => String.eqb (lower (fst h)) (lower key)) hs) |}.

Definition lexers (mime : str) : option str :=
  if String.eqb mime "application/json" then Some "JSON"
  else if String.eqb mime "text/html" then Some "HTML"
  else None.

Definition int (s : str) : option Z :=
  option_map Z.of_int (NilZero.int_of_string s).

Definition x1_body : str := "{" ++ dquote ++ "x" ++ dquote ++ ":1}".

Definition ok_json : Response :=
  {| http_version := "HTTP/1.1"; status_code := 200; reason_phrase := "OK";
     headers := make_headers [("Content-Type", "application/json; charset=utf-8");
                              ("Content-Length", "7")];
     has_redirect_location := false;
     stream := [b x1_body]; stream_error := None;
     text := x1_body;
     json := Some (JDict [("x", JInt 1)]) |}.


Definition moved : Response :=
  {| http_version := "HTTP/2"; status_code := 301;
     reason_phrase := "Moved Permanently";
     headers := make_headers [("Location", "https://example.org/y")];
     has_redirect_location := true;
     stream := []; stream_error := None;
     text := "";
     json := None |}.

Definition not_found : Response :=
  {| http_version := "HTTP/1.1"; status_code := 404; reason_phrase := "Not Found";
     headers := make_headers [("Content-Type", "text/html")];
     has_redirect_location := false;
     stream := [b "<h1>gone</h1>"]; stream_error := None;
     text := "<h1>gone</h1>";
     json := None |}.

Definition two_cookies : Response :=
  {| http_version := "HTTP/1.1"; status_code := 200; reason_phrase := "OK";
     headers := make_headers [("Set-Cookie", "a=1"); ("Vary", "Accept");
                              ("Set-Cookie", "b=2")];
     has_redirect_location := false;
     stream := []; stream_error := None;
     text := "";
     json := None |}.

(** A response with the header [X-Name: caf\xe9]. *)
Definition latin1_header : Response :=
  {| http_version := "HTTP/1.1"; status_code := 200; reason_phrase := "OK";
     headers := {| raw := [(b "X-Name", (b "caf" ++ [xe9])%list)]; get := fun _ => None |};
     has_redirect_location := false;
     stream := []; stream_error := None;
     text := "";
     json := None |}.

Definition three_chunks : Response :=
  {| http_version := "HTTP/1.1"; status_code := 200; reason_phrase := "OK";
     headers := make_headers [("Content-Length", "6")];
     has_redirect_location := false;
     stream := [b "abc"; b "de"; b "f"]; stream_error := None;
     text := "abcdef";
     json := None |}.

Definition get_y : Request :=
  {| method := "GET";
     url := {| raw_scheme := b "https"; raw_host := b "example.org";
               raw_port := None; raw_path := b "/y?q=1" |};
     request_headers := make_headers [("Host", "example.org"); ("Accept", "*/*");
                                      ("Accept", "text/html")] |}.

Definition five_seconds : PyFloat :=
  {| float_repr := "5.0"; float_truthy := true |}.

Definition options (method content : option str) (json : option JSON)
  (follow_redirects http2 : bool) (download : option BinaryIO) (verbose : bool)
  : Options :=
  {| opt_url := "https://example.org/y?q=1";
     opt_method := method;
     opt_params := [];
     opt_content := content;
     opt_data := [];
     opt_files := [];
     opt_json := json;
     opt_headers := [];
     opt_cookies := [];
     opt_auth := None;
     opt_proxies := None;
     opt_timeout := five_seconds;
     opt_follow_redirects := follow_redirects;
     opt_verify := true;
     opt_http2 := http2;
     opt_download := download;
     opt_verbose := verbose |}.

(** A transport that answers every call the same way. *)
Definition answers (response : Response) (hops : list Response) : Transport :=
  fun _ _ => {| sent := get_y; outcome := inr response; hooked := hops |}.

Definition fails_with (name message : str) : Transport :=
  fun _ _ => {| sent := get_y; outcome := inl (name, message); hooked := [] |}.

Definition out_bin : BinaryIO := {| name := "out.bin" |}.

End Examples.

(** ** Further sample inputs *)

Module Samples.

(** A body that breaks off after its first chunk. *)
Definition cut_short : Response :=
  {| http_version := "HTTP/1.1"; status_code := 200; reason_phrase := "OK";
     headers := Examples.make_headers [("Content-Type", "text/html")];
     has_redirect_location := false;
     stream := [Examples.b "<h1>"]; stream_error := Some ("ReadTimeout", "timed out");
     text := "<h1>";
     json := None |}.

(** A body of six bytes that breaks off after three. *)
Definition cut_short_of_six : Response :=
  {| http_version := "HTTP/1.1"; status_code := 200; reason_phrase := "OK";
     headers := Examples.make_headers [("Content-Length", "6")];
     has_redirect_location := false;
     stream := [Examples.b "abc"]; stream_error := Some ("ReadError", "reset");
     text := "abc";
     json := None |}.

(** A Content-Length that is no number. *)
Definition odd_length : Response :=
  {| http_version := "HTTP/1.1"; status_code := 200; reason_phrase := "OK";
     headers := Examples.make_headers [("Content-Length", "many")];
     has_redirect_location := false;
     stream := [Examples.b "abc"]; stream_error := None;
     text := "abc";
     json := None |}.

(** A Content-Type with white space around the media type. *)
Definition spaced_json : Response :=
  {| http_version := "HTTP/1.1"; status_code := 200; reason_phrase := "OK";
     headers := Examples.make_headers
                  [("Content-Type", " application/json ;charset=utf-8")];
     has_redirect_location := false;
     stream := [Examples.b "[]"]; stream_error := None;
     text := "[]";
     json := Some (JList []) |}.

(** A redirect whose body is empty. *)
Definition found : Response :=
  {| http_version := "HTTP/1.1"; status_code := 302; reason_phrase := "Found";
     headers := Examples.make_headers [("Location", "/z")];
     has_redirect_location := true;
     stream := []; stream_error := None;
     text := "";
     json := None |}.

(** [json.loads] on three texts. *)
Definition loads (text : str) : option JSON :=
  if String.eqb text "null" then Some JNull
  else if String.eqb text "{}" then Some (JDict [])
  else if String.eqb text "0" then Some (JInt 0)
  else None.

Definition with_data (data cookies : list (str * str)) : Options :=
  {| opt_url := "https://example.org/form";
     opt_method := None;
     opt_params := [("page", "1"); ("page", "2")];
     opt_content := None;
     opt_data := data;
     opt_files := [];
     opt_json := None;
     opt_headers := [("Accept", "text/html"); ("Accept", "*/*")];
     opt_cookies := cookies;
     opt_auth := None;
     opt_proxies := None;
     opt_timeout := Examples.five_seconds;
     opt_follow_redirects := false;
     opt_verify := true;
     opt_http2 := false;
     opt_download := None;
     opt_verbose := false |}.

End Samples.

(** ** Observations used in the statements *)

(** The text of bytes that are all ASCII. *)
Definition ascii_text (b : bytes) : str :=
  string_of_list_ascii (map ascii_of_byte b).

Definition is_ascii (b : bytes) : bool := forallb is_ascii_byte b.

Definition ascii_header (h : bytes * bytes) : bool :=
  is_ascii (fst h) && is_ascii (snd h).

(** The line "Name: Value" of one header. *)
Definition name_value_line (h : bytes * bytes) : str :=
  ascii_text (fst h) ++ ": " ++ ascii_text (snd h).

(** The values passed to [progress.update(..., completed=...)], in order. *)
Fixpoint reports (t : Trace) : list nat :=
  match t with
  | [] => []
  | ProgressUpdate completed :: rest => completed :: reports rest
  | _ :: rest => reports rest
  end.

(** The chunks passed to [download.write], in order. *)
Fixpoint written (t : Trace) : list bytes :=
  match t with
  | [] => []
  | FileWrite _ chunk :: rest => chunk :: written rest
  | _ :: rest => written rest
  end.

(** The content of a file opened with mode "wb" after the writes of [t]. *)
Definition file_content (t : Trace) : bytes := List.concat (written t).

(** The sum of the sizes of the chunks written in [t]. *)
Definition bytes_written (t : Trace) : nat :=
  list_sum (map (@List.length byte) (written t)).

(** The plain lines printed with [console.print(text)]. *)
Fixpoint console_lines (t : Trace) : list str :=
  match t with
  | [] => []
  | ConsolePrint line :: rest => line :: console_lines rest
  | _ :: rest => console_lines rest
  end.

(** The calls of [client.stream] made in [t]. *)
Fixpoint network_calls (t : Trace) : list (ClientConfig * StreamCall) :=
  match t with
  | [] => []
  | ClientStream config call :: rest => (config, call) :: network_calls rest
  | _ :: rest => network_calls rest
  end.

(** The run ended in failure: an exception other than [SystemExit(0)]. *)
Definition failed {A : Type} (m : M A) : Prop :=
  match snd m with
  | Ok _ => False
  | Raise (SystemExit code) => code <> 0%Z
  | Raise _ => True
  end.

(** How many of the four body variants are given non-empty: content,
    form data and files that are not empty, and a JSON value, whatever the
    value is (0, false and {} are JSON bodies too, and [main] passes them
    on). *)
Definition body_variants (o : Options) : nat :=
  (if opt_truthy str_truthy (opt_content o) then 1 else 0)
  + (if seq_truthy (opt_data o) then 1 else 0)
  + (if seq_truthy (opt_files o) then 1 else 0)
  + (match opt_json o with Some _ => 1 | None => 0 end).

(** [int] accepts the Content-Length of the response, when it has one that
    is not empty. *)
Definition length_accepted (int : str -> option Z) (response : Response) : Prop :=
  forall s,
    get (headers response) "Content-Length" = Some s -> s <> "" -> int s <> None.

(** What [print_request_headers] prints for a request that renders as
    [http_text]. *)
Definition request_echo (http_text : str) : Trace :=
  [ConsolePrintSyntax http_text "http"; ConsolePrintSyntax "" "http"].

(** What the on-request hooks print for [request]: the echo when [verbose]
    is set and the request renders, nothing otherwise. *)
Definition echo_of (verbose : bool) (request : Request) : Trace :=
  if verbose then
    match format_request_headers request with
    | Ok http_text => request_echo http_text
    | Raise _ => []
    end
  else [].

(** The headers of [response] are ASCII bytes. *)
Definition printable (response : Response) : bool :=
  forallb ascii_header (raw (headers response)).



(** Every report in [t] is the sum of the sizes of the chunks written
    before it, on top of [start]. *)
Definition reports_track (start : nat) (t : Trace) : Prop :=
  forall pre completed post,
    t = (pre ++ ProgressUpdate completed :: post)%list ->
    completed = start + bytes_written pre.

(** The computation does not end in [SystemExit]. *)
Definition no_exit {A : Type} (m : M A) : Prop :=
  forall code, snd m <> Raise (SystemExit code).

(** The run stopped with an error before any call of [client.stream]. *)
Definition rejected_before_network_call {A : Type} (m : M A) : Prop :=
  failed m /\ network_calls (fst m) = [].

(** Console output: [console.print] of plain or highlighted text. *)
Definition is_console (e : Event) : bool :=
  match e with
  | ConsolePrintSyntax _ _ | ConsolePrint _ => true
  | _ => false
  end.

(** What a download does besides console output: the progress task, its
    updates and the writes to the file. *)
Definition is_download_event (e : Event) : bool :=
  match e with
  | ProgressAddTask _ _ | ProgressUpdate _ | FileWrite _ _ => true
  | _ => false
  end.

(** Every event of the run satisfies [p]. *)
Definition only_events {A : Type} (p : Event -> bool) (m : M A) : Prop :=
  Forall (fun e => p e = true) (fst m).

(** The run ends normally or with an exception among [allowed]. *)
Definition raises_only {A : Type} (allowed : Exception -> Prop) (m : M A) : Prop :=
  forall e, snd m = Raise e -> allowed e.

(** The exceptions that [main] lets through: the decoding error of a header
    and, when downloading, the [ValueError] of [int]. *)
Definition passes_through (download : option BinaryIO) (e : Exception) : Prop :=
  e = UnicodeDecodeError \/ (e = ValueError /\ download <> None).

(** [d[k]] for a dict kept as its items in order; [None] stands for
    [KeyError]. *)
Fixpoint dict_get (d : list (str * str)) (k : str) : option str :=
  match d with
  | [] => None
  | (k', v) :: rest => if String.eqb k' k then Some v else dict_get rest k
  end.

(** The value of the last pair of [pairs] under the name [k]. *)
Fixpoint last_value (pairs : list (str * str)) (k : str) : option str :=
  match pairs with
  | [] => None
  | (k', v) :: rest =>
      match last_value rest k with
      | Some v' => Some v'
      | None => if String.eqb k' k then Some v else None
      end
  end.

(** Every character of [s] is white space. *)
Fixpoint all_space (s : str) : bool :=
  match s with
  | EmptyString => true
  | String c rest => is_space c && all_space rest
  end.

(** How a download ends once its chunks are handled: normally, or with the
    [RequestError] of a transfer that broke off. *)
Definition transfer_result (response : Response) : Result unit :=
  match stream_error response with
  | None => Ok tt
  | Some (name, message) => Raise (RequestError name message)
  end.

(** The Content-Length header is absent or empty. *)
Definition no_content_length (response : Response) : Prop :=
  get (headers response) "Content-Length" = None
  \/ get (headers response) "Content-Length" = Some "".

(** ** Rendering of headers *)

Lemma decode_ascii_ok (b : bytes) :
  is_ascii b = true -> decode_ascii b = Ok (ascii_text b).
Proof.
  unfold is_ascii, decode_ascii, ascii_text. intros H. now rewrite H.
Qed.

Lemma decode_ascii_error (b : bytes) :
  is_ascii b = false -> decode_ascii b = Raise UnicodeDecodeError.
Proof.
  unfold is_ascii, decode_ascii. intros H. now rewrite H.
Qed.

Lemma header_line_ok (h : bytes * bytes) :
  ascii_header h = true -> header_line h = Ok (name_value_line h).
Proof.
  destruct h as [name value]. unfold ascii_header, header_line, name_value_line.
  cbn [fst snd]. intros H. apply andb_prop in H as [Hn Hv].
  rewrite (decode_ascii_ok _ Hn), (decode_ascii_ok _ Hv). reflexivity.
Qed.

Lemma header_lines_ok (hs : list (bytes * bytes)) :
  forallb ascii_header hs = true ->
  header_lines hs = Ok (map name_value_line hs).
Proof.
  induction hs as [|h rest IH]; cbn [forallb header_lines map]; intros H.
  - reflexivity.
  - apply andb_prop in H as [Hh Hrest].
    rewrite (header_line_ok _ Hh), (IH Hrest). reflexivity.
Qed.

Lemma header_lines_error (hs : list (bytes * bytes)) :
  forallb ascii_header hs = false ->
  header_lines hs = Raise UnicodeDecodeError.
Proof.
  induction hs as [|[name value] rest IH]; cbn [forallb header_lines]; intros H.
  - discriminate.
  - unfold header_line. unfold ascii_header in H at 1. cbn [fst snd] in H.
    destruct (is_ascii name) eqn:Hn.
    + rewrite (decode_ascii_ok _ Hn). cbn [rbind].
      destruct (is_ascii value) eqn:Hv.
      * rewrite (decode_ascii_ok _ Hv). cbn [rbind]. cbn [andb] in H.
        rewrite (IH H). reflexivity.
      * rewrite (decode_ascii_error _ Hv). reflexivity.
    + rewrite (decode_ascii_error _ Hn). reflexivity.
Qed.

(** The lines keep the order and the multiplicity of the headers: line [i]
    is the line of header [i]. *)
Lemma name_value_lines_nth (hs : list (bytes * bytes)) (i : nat) (h : bytes * bytes) :
  nth_error hs i = Some h ->
  nth_error (map name_value_line hs) i = Some (name_value_line h).
Proof.
  intros H. now apply map_nth_error.
Qed.

(** C8, for headers made of ASCII bytes: for every such sequence, the
    rendered text of a request or response carrying them is the request or
    status line followed by one "Name: Value" line per header, joined by line
    feeds: as many lines as headers, line [i] being the line of header [i], so
    the original order and duplicates are kept. *)
Theorem header_rendering_keeps_order (hs : list (bytes * bytes)) :
  forallb ascii_header hs = true ->
  exists lines : list str,
    header_lines hs = Ok lines
    /\ List.length lines = List.length hs
    /\ (forall i h, nth_error hs i = Some h ->
                    nth_error lines i = Some (name_value_line h))
    /\ (forall request : Request,
          raw (request_headers request) = hs ->
          is_ascii (url_raw_last (url request)) = true ->
          format_request_headers request
          = Ok (join nl (request_line request
                           (ascii_text (url_raw_last (url request))) :: lines)))
    /\ (forall response : Response,
          raw (headers response) = hs ->
          format_response_headers response
          = Ok (join nl (status_line response :: lines))).
Proof.
  intros Hascii. exists (map name_value_line hs).
  pose proof (header_lines_ok hs Hascii) as Hlines.
  split; [exact Hlines|].
  split; [apply length_map|].
  split; [intros i h; apply name_value_lines_nth|].
  split.
  - intros request Hraw Htarget. unfold format_request_headers.
    rewrite (decode_ascii_ok _ Htarget), Hraw, Hlines. reflexivity.
  - intros response Hraw. unfold format_response_headers.
    rewrite Hraw, Hlines. reflexivity.
Qed.

Lemma header_rendering_keeps_order_witness :
  forallb ascii_header (raw (headers Examples.two_cookies)) = true
  /\ format_response_headers Examples.two_cookies
     = Ok (join nl ["HTTP/1.1 200 OK"; "Set-Cookie: a=1"; "Vary: Accept";
                    "Set-Cookie: b=2"]).
Proof.
  split; [reflexivity|].
  destruct (header_rendering_keeps_order (raw (headers Examples.two_cookies)) eq_refl)
    as (lines & Hlines & _ & _ & _ & Hresponse).
  rewrite (Hresponse Examples.two_cookies eq_refl).
  vm_compute in Hlines. injection Hlines as <-. reflexivity.
Defined.

(** A header value with a byte above 0x7f is not rendered at all:
    [decode('ascii')] raises. *)
Lemma header_rendering_non_ascii :
  raw (headers Examples.latin1_header) = [(Examples.b "X-Name", (Examples.b "caf" ++ [xe9])%list)]
  /\ format_response_headers Examples.latin1_header = Raise UnicodeDecodeError
  /\ ~ (exists http_text, format_response_headers Examples.latin1_header = Ok http_text).
Proof.
  split; [reflexivity|]. split; [reflexivity|].
  intros [http_text H]. vm_compute in H. discriminate H.
Qed.

(** ** The monad *)

Lemma bind_ok {A B : Type} (t : Trace) (a : A) (k : A -> M B) :
  bind (t, Ok a) k = ((t ++ fst (k a))%list, snd (k a)).
Proof.
  cbn. now destruct (k a).
Qed.

Lemma bind_raise {A B : Type} (t : Trace) (e : Exception) (k : A -> M B) :
  bind (t, Raise e) k = (t, Raise e).
Proof.
  reflexivity.
Qed.

Lemma bind_emit {B : Type} (e : Event) (k : unit -> M B) :
  bind (emit e) k = (e :: fst (k tt), snd (k tt)).
Proof.
  unfold emit. now rewrite bind_ok.
Qed.

Lemma bind_ret {A B : Type} (a : A) (k : A -> M B) :
  bind (ret a) k = k a.
Proof.
  unfold ret. rewrite bind_ok. now destruct (k a).
Qed.

Lemma bind_lift_ok {A B : Type} (a : A) (k : A -> M B) :
  bind (lift (Ok a)) k = k a.
Proof.
  exact (bind_ret a k).
Qed.

Lemma for_each_one {A : Type} (x : A) (f : A -> M unit) :
  f x = (fst (f x), Ok tt) -> for_each [x] f = f x.
Proof.
  intros H. cbn [for_each]. rewrite H, bind_ok. cbn. now rewrite app_nil_r.
Qed.

Lemma print_request_headers_ok (request : Request) (http_text : str) :
  format_request_headers request = Ok http_text ->
  print_request_headers request = (request_echo http_text, Ok tt).
Proof.
  intros H. unfold print_request_headers. rewrite H, bind_lift_ok.
  now rewrite !bind_emit.
Qed.

Lemma print_response_headers_ok (response : Response) (http_text : str) :
  format_response_headers response = Ok http_text ->
  print_response_headers response = ([ConsolePrintSyntax http_text "http"], Ok tt).
Proof.
  intros H. unfold print_response_headers. now rewrite H, bind_lift_ok.
Qed.

(** ** The download loop *)

Lemma file_content_size (t : Trace) :
  List.length (file_content t) = bytes_written t.
Proof.
  unfold file_content, bytes_written. apply length_concat.
Qed.

Lemma last_cons_default {A : Type} (l : list A) (a d : A) :
  last (a :: l) d = last l a.
Proof.
  revert a d. induction l as [|b l IH]; intros a d; [reflexivity|].
  change (last (a :: b :: l) d) with (last (b :: l) d).
  now rewrite !IH.
Qed.

Lemma bytes_written_write (file : BinaryIO) (chunk : bytes) (t : Trace) :
  bytes_written (FileWrite file chunk :: t) = List.length chunk + bytes_written t.
Proof.
  reflexivity.
Qed.

Lemma bytes_written_report (completed : nat) (t : Trace) :
  bytes_written (ProgressUpdate completed :: t) = bytes_written t.
Proof.
  reflexivity.
Qed.

Lemma download_loop_step (download : BinaryIO) (chunk : bytes)
  (rest : list bytes) (n : nat) :
  download_loop download (chunk :: rest) n
  = (FileWrite download chunk :: ProgressUpdate (advance n chunk)
       :: fst (download_loop download rest (advance n chunk)),
     snd (download_loop download rest (advance n chunk))).
Proof.
  cbn [download_loop]. cbv zeta. now rewrite !bind_emit.
Qed.

Lemma download_loop_returns (download : BinaryIO) (chunks : list bytes) (n : nat) :
  snd (download_loop download chunks n) = Ok tt.
Proof.
  revert n. induction chunks as [|chunk rest IH]; intros n.
  - reflexivity.
  - rewrite download_loop_step. apply IH.
Qed.

Lemma download_loop_written (download : BinaryIO) (chunks : list bytes) (n : nat) :
  written (fst (download_loop download chunks n)) = chunks.
Proof.
  revert n. induction chunks as [|chunk rest IH]; intros n.
  - reflexivity.
  - rewrite download_loop_step. cbn [fst written]. now rewrite IH.
Qed.

(** Each report of the loop counts the chunks written so far. *)
Lemma download_loop_tracks (download : BinaryIO) (chunks : list bytes) (n : nat) :
  reports_track n (fst (download_loop download chunks n)).
Proof.
  revert n. induction chunks as [|chunk rest IH]; intros n pre completed post.
  - cbn. intros H. destruct pre; discriminate H.
  - rewrite download_loop_step. cbn [fst]. intros H.
    destruct pre as [|e1 [|e2 pre']]; cbn in H.
    + discriminate H.
    + injection H as <- <- _. rewrite bytes_written_write. unfold advance.
      cbn. lia.
    + injection H as <- <- H.
      rewrite (IH _ _ _ _ H), bytes_written_write, bytes_written_report.
      unfold advance. lia.
Qed.

(** The reports of the loop never fall below the counter it started from,
    and never decrease. *)
Lemma download_loop_monotone (download : BinaryIO) (chunks : list bytes) (n : nat) :
  Forall (le n) (reports (fst (download_loop download chunks n)))
  /\ StronglySorted le (reports (fst (download_loop download chunks n))).
Proof.
  revert n. induction chunks as [|chunk rest IH]; intros n.
  - split; constructor.
  - rewrite download_loop_step. cbn [fst reports].
    destruct (IH (advance n chunk)) as [Hge Hsorted]. split.
    + constructor; [unfold advance; lia|].
      eapply Forall_impl; [|exact Hge]. unfold advance. intros m Hm. cbn in Hm. lia.
    + constructor; assumption.
Qed.

(** The last report of the loop is the counter it started from plus
    everything written. *)
Lemma download_loop_last (download : BinaryIO) (chunks : list bytes) (n : nat) :
  last (reports (fst (download_loop download chunks n))) n
  = n + bytes_written (fst (download_loop download chunks n)).
Proof.
  revert n. induction chunks as [|chunk rest IH]; intros n.
  - cbn. lia.
  - rewrite download_loop_step. cbn [fst reports].
    rewrite bytes_written_write, bytes_written_report.
    specialize (IH (advance n chunk)).
    rewrite last_cons_default, IH. unfold advance. lia.
Qed.

(** An event that is neither a write nor a report leaves the three
    observations alone. *)
Lemma reports_track_skip (e : Event) (t : Trace) :
  reports (e :: t) = reports t ->
  written [e] = [] ->
  reports_track 0 t -> reports_track 0 (e :: t).
Proof.
  intros Hreports Hwritten Htrack pre completed post H.
  destruct pre as [|e' pre'].
  - cbn in H. injection H as -> _. cbn in Hreports.
    exfalso. apply (f_equal (@List.length nat)) in Hreports. cbn in Hreports. lia.
  - cbn in H. injection H as <- H. rewrite (Htrack _ _ _ H).
    unfold bytes_written. destruct e; try discriminate Hwritten; reflexivity.
Qed.

(** ** Where [SystemExit] can come from *)

Lemma no_exit_bind {A B : Type} (m : M A) (k : A -> M B) :
  no_exit m -> (forall a, no_exit (k a)) -> no_exit (bind m k).
Proof.
  intros Hm Hk code. destruct m as [t [a|e]].
  - rewrite bind_ok. apply Hk.
  - rewrite bind_raise. cbn. intros H. injection H as ->.
    exact (Hm code eq_refl).
Qed.

Lemma no_exit_ok {A : Type} (t : Trace) (a : A) : no_exit (t, Ok a).
Proof.
  intros code. discriminate.
Qed.

Lemma no_exit_for_each {A : Type} (xs : list A) (f : A -> M unit) :
  Forall (fun x => no_exit (f x)) xs -> no_exit (for_each xs f).
Proof.
  induction 1 as [|x rest Hx _ IH]; cbn [for_each].
  - apply no_exit_ok.
  - apply no_exit_bind; [exact Hx|intros _; exact IH].
Qed.

Lemma header_lines_raises (hs : list (bytes * bytes)) (e : Exception) :
  header_lines hs = Raise e -> e = UnicodeDecodeError.
Proof.
  destruct (forallb ascii_header hs) eqn:H.
  - rewrite (header_lines_ok _ H). discriminate.
  - rewrite (header_lines_error _ H). intros E. now injection E as <-.
Qed.

Lemma format_request_headers_raises (request : Request) (e : Exception) :
  format_request_headers request = Raise e -> e = UnicodeDecodeError.
Proof.
  unfold format_request_headers.
  destruct (is_ascii (url_raw_last (url request))) eqn:Htarget.
  - rewrite (decode_ascii_ok _ Htarget). cbn [rbind].
    destruct (header_lines _) as [ls|e'] eqn:Hlines; [discriminate|].
    cbn [rbind]. intros E. injection E as <-. exact (header_lines_raises _ _ Hlines).
  - rewrite (decode_ascii_error _ Htarget). intros E. now injection E as <-.
Qed.

Lemma format_response_headers_raises (response : Response) (e : Exception) :
  format_response_headers response = Raise e -> e = UnicodeDecodeError.
Proof.
  unfold format_response_headers.
  destruct (header_lines _) as [ls|e'] eqn:Hlines; [discriminate|].
  cbn [rbind]. intros E. injection E as <-. exact (header_lines_raises _ _ Hlines).
Qed.

Lemma no_exit_print_request_headers (request : Request) :
  no_exit (print_request_headers request).
Proof.
  destruct (format_request_headers request) as [http_text|e] eqn:H.
  - rewrite (print_request_headers_ok _ _ H). apply no_exit_ok.
  - unfold print_request_headers. rewrite H.
    rewrite (format_request_headers_raises _ _ H). intros code. discriminate.
Qed.

Lemma no_exit_print_response_headers (response : Response) :
  no_exit (print_response_headers response).
Proof.
  destruct (format_response_headers response) as [http_text|e] eqn:H.
  - rewrite (print_response_headers_ok _ _ H). apply no_exit_ok.
  - unfold print_response_headers. rewrite H.
    rewrite (format_response_headers_raises _ _ H). intros code. discriminate.
Qed.

Lemma no_exit_read (response : Response) : no_exit (read response).
Proof.
  unfold read. destruct (stream_error response) as [[name message]|];
    intros code; discriminate.
Qed.

Lemma no_exit_iter_download (response : Response) (download : BinaryIO) :
  no_exit (iter_download response download).
Proof.
  unfold iter_download. apply no_exit_bind.
  - intros code. rewrite download_loop_returns. discriminate.
  - intros _. destruct (stream_error response) as [[name message]|];
      intros code; discriminate.
Qed.

Section Correctness.

Variable get_lexer_for_mimetype : str -> option str.
Variable int : str -> option Z.
Variable transport : Transport.

Local Abbreviation main' := (main get_lexer_for_mimetype int transport).
Local Abbreviation stream_block' := (stream_block get_lexer_for_mimetype int).
Local Abbreviation print_redirects' := (print_redirects get_lexer_for_mimetype).
Local Abbreviation print_response' := (print_response get_lexer_for_mimetype).
Local Abbreviation get_lexer_for_response' :=
  (get_lexer_for_response get_lexer_for_mimetype).
Local Abbreviation download_response' := (download_response int).
Local Abbreviation make_event_hooks' := (make_event_hooks get_lexer_for_mimetype).
Local Abbreviation client_stream' := (client_stream transport).

(** The [with] statement of [main], for the options [o]. *)
Local Abbreviation exchange_of o := (transport (client_config o) (stream_call o)).
Local Abbreviation with_stream o :=
  (client_stream' (client_config o)
     (make_event_hooks' (opt_verbose o) (opt_follow_redirects o))
     (stream_call o) (stream_block' (opt_download o))).

(** [main] after the [with] statement: the exit status comes from the
    response it bound, a [RequestError] is reported on one line, any other
    exception goes through. *)
Lemma main_after_with (o : Options) :
  main' o =
  match with_stream o with
  | (t, Ok response) =>
      (t, Raise (SystemExit (if is_success response then 0 else 1)))
  | (t, Raise (RequestError name message)) =>
      ((t ++ [ConsolePrint (name ++ ": " ++ message)%string])%list,
       Raise (SystemExit 1))
  | (t, Raise e) => (t, Raise e)
  end.
Proof.
  unfold main. destruct (with_stream o) as [t [response|e]].
  - cbn. now rewrite app_nil_r.
  - destruct e; reflexivity.
Qed.

(** The [with] statement, phase by phase. *)
Lemma client_stream_phases (config : ClientConfig) (event_hooks : EventHooks)
  (call : StreamCall) (block : Response -> M unit) :
  client_stream' config event_hooks call block =
  let exchange := transport config call in
  match for_each (hooks_request event_hooks) (fun hook => hook (sent exchange)) with
  | (t1, Raise e) => (ClientStream config call :: t1, Raise e)
  | (t1, Ok _) =>
      match outcome exchange with
      | inl (name, message) =>
          (ClientStream config call :: t1, Raise (RequestError name message))
      | inr response =>
          match block response with
          | (t2, Raise e) => (ClientStream config call :: t1 ++ t2, Raise e)
          | (t2, Ok _) =>
              match for_each (hooked exchange)
                      (fun hop => for_each (hooks_response event_hooks)
                                    (fun hook => hook hop)) with
              | (t3, Raise e) =>
                  (ClientStream config call :: t1 ++ t2 ++ t3, Raise e)
              | (t3, Ok _) =>
                  (ClientStream config call :: t1 ++ t2 ++ t3, Ok response)
              end
          end
      end
  end%list.
Proof.
  unfold client_stream. rewrite bind_emit. cbv zeta.
  destruct (for_each (hooks_request event_hooks) _) as [t1 [[]|e]]; [|reflexivity].
  rewrite bind_ok.
  destruct (outcome (transport config call)) as [[name message]|response].
  - cbn. now rewrite app_nil_r.
  - destruct (block response) as [t2 [[]|e]].
    + rewrite bind_ok.
      destruct (for_each (hooked (transport config call)) _) as [t3 [[]|e]].
      * rewrite bind_ok. cbn. now rewrite app_nil_r.
      * reflexivity.
    + reflexivity.
Qed.

Lemma request_hooks_run (verbose follow_redirects : bool) (request : Request) :
  (verbose = true -> exists http_text, format_request_headers request = Ok http_text) ->
  for_each (hooks_request (make_event_hooks' verbose follow_redirects))
    (fun hook => hook request)
  = (echo_of verbose request, Ok tt).
Proof.
  intros H. unfold echo_of. destruct verbose; cbn [make_event_hooks hooks_request].
  - destruct (H eq_refl) as [http_text Htext]. rewrite Htext.
    rewrite for_each_one; rewrite (print_request_headers_ok _ _ Htext); reflexivity.
  - reflexivity.
Qed.

(** [main] starts with the call of [client.stream], whatever the options. *)
Lemma main_makes_stream_call (o : Options) :
  exists rest,
    fst (main' o) = ClientStream (client_config o) (stream_call o) :: rest.
Proof.
  rewrite main_after_with, client_stream_phases. cbv zeta.
  destruct (for_each _ _) as [t1 [[]|e]].
  - destruct (outcome _) as [[name message]|response].
    + eexists. reflexivity.
    + destruct (stream_block' _ _) as [t2 [[]|e]].
      * destruct (for_each _ _) as [t3 [[]|e]]; [eexists; reflexivity|].
        destruct e; eexists; reflexivity.
      * destruct e; eexists; reflexivity.
  - destruct e; eexists; reflexivity.
Qed.

(** ** Body variants *)

(** With two variants given, one of content, form data and files is not
    empty, so the default method is POST whatever the JSON value. *)
Lemma default_method_for_several (o : Options) :
  1 < body_variants o ->
  default_method (opt_content o) (opt_data o) (opt_files o) (opt_json o) = "POST".
Proof.
  unfold default_method, body_variants.
  destruct (opt_truthy str_truthy (opt_content o)), (seq_truthy (opt_data o)),
    (seq_truthy (opt_files o)); cbn [orb]; try reflexivity.
  destruct (opt_json o); cbn; lia.
Qed.


(** C3, as the code has it: with more than one of content, form data, files
    and JSON given non-empty (a JSON value counts whatever it is), [main]
    makes no exclusivity check: it calls [client.stream] first thing, handing
    over every variant as given (form data as a dict), with POST as the method
    when none was given. *)
Theorem body_variants_pass_through (o : Options) :
  1 < body_variants o ->
  (exists rest,
     fst (main' o) = ClientStream (client_config o) (stream_call o) :: rest)
  /\ ~ rejected_before_network_call (main' o)
  /\ call_content (stream_call o) = opt_content o
  /\ call_data (stream_call o) = dict (opt_data o)
  /\ call_files (stream_call o) = opt_files o
  /\ call_json (stream_call o) = opt_json o
  /\ (opt_truthy str_truthy (opt_method o) = false ->
      call_method (stream_call o) = "POST").
Proof.
  intros Hseveral.
  destruct (main_makes_stream_call o) as [rest Hcall].
  split; [now exists rest|]. split.
  - intros [_ Hnone]. rewrite Hcall in Hnone. discriminate Hnone.
  - repeat split. intros Hmethod.
    cbn [stream_call call_method]. unfold resolve_method.
    assert (Hdefault : default_method (opt_content o) (opt_data o) (opt_files o)
                         (opt_json o) = "POST").
    { now apply default_method_for_several. }
    destruct (opt_method o) as [m|]; cbn [opt_truthy] in Hmethod.
    + now rewrite Hmethod.
    + exact Hdefault.
Qed.

(** ** The request line *)

(** C10: in verbose mode the text printed for the request starts with the
    line [method target HTTP/1.1]: the protocol field is this literal whatever
    the options, the [--http2] flag included, and whatever the response says
    about the protocol in use. *)
Theorem request_line_is_http11 (o : Options) (http_text : str) :
  opt_verbose o = true ->
  format_request_headers (sent (exchange_of o)) = Ok http_text ->
  (exists rest,
     fst (main' o)
     = ClientStream (client_config o) (stream_call o)
         :: ConsolePrintSyntax http_text "http" :: rest)
  /\ exists target lines,
       decode_ascii (url_raw_last (url (sent (exchange_of o)))) = Ok target
       /\ http_text
          = join nl ((method (sent (exchange_of o)) ++ " " ++ target ++ " HTTP/1.1")
                       :: lines).
Proof.
  intros Hverbose Htext. split.
  - rewrite main_after_with, client_stream_phases. cbv zeta.
    rewrite request_hooks_run by (intros _; now exists http_text).
    unfold echo_of. rewrite Hverbose, Htext. unfold request_echo.
    destruct (outcome _) as [[name message]|response].
    + eexists. reflexivity.
    + destruct (stream_block' _ _) as [t2 [[]|e]].
      * destruct (for_each _ _) as [t3 [[]|e]]; [eexists; reflexivity|].
        destruct e; eexists; reflexivity.
      * destruct e; eexists; reflexivity.
  - unfold format_request_headers in Htext.
    destruct (decode_ascii _) as [target|e]; [|discriminate].
    cbn [rbind] in Htext.
    destruct (header_lines _) as [lines|e]; [|discriminate].
    cbn [rbind] in Htext. injection Htext as <-.
    exists target, lines. split; reflexivity.
Qed.

(** ** Rendering of bodies *)

Lemma response_text_total (lexer_name : str) (response : Response) :
  exists body_text, response_text lexer_name response = Ok body_text.
Proof.
  unfold response_text, response_json.
  destruct (String.eqb (lower lexer_name) "json").
  - destruct (json response) as [data|]; cbn; eexists; reflexivity.
  - eexists; reflexivity.
Qed.

Lemma print_response_total (response : Response) :
  exists event, print_response' response = ([event], Ok tt).
Proof.
  unfold print_response.
  destruct (str_truthy (get_lexer_for_response' response)).
  - destruct (response_text_total (get_lexer_for_response' response) response)
      as [body_text ->].
    rewrite bind_lift_ok. eexists; reflexivity.
  - eexists; reflexivity.
Qed.



(** C9: without a download target, once the body is drained, the block
    under [with] prints the response headers and then, when the content is
    empty, nothing more; when it is not empty, the delimiter and the
    rendered body, and nothing else. *)
Theorem body_shown_iff_content (response : Response) (http_text : str) :
  format_response_headers response = Ok http_text ->
  stream_error response = None ->
  (List.concat (stream response) = [] ->
   stream_block' None response = ([ConsolePrintSyntax http_text "http"], Ok tt))
  /\ (List.concat (stream response) <> [] ->
      exists body,
        print_response' response = ([body], Ok tt)
        /\ stream_block' None response
           = ([ConsolePrintSyntax http_text "http"; ConsolePrintSyntax "" "http";
               body], Ok tt)).
Proof.
  intros Htext Hstream. unfold stream_block.
  rewrite (print_response_headers_ok _ _ Htext), bind_ok.
  unfold read. rewrite Hstream, bind_ret. split.
  - intros ->. reflexivity.
  - intros Hcontent.
    destruct (List.concat (stream response)) as [|byte rest]; [contradiction|].
    cbn [seq_truthy]. unfold print_delimiter. rewrite bind_emit.
    destruct (print_response_total response) as [body Hbody].
    exists body. split; [exact Hbody|]. rewrite Hbody. reflexivity.
Qed.

(** ** Downloads *)

Lemma iter_download_trace (response : Response) (download : BinaryIO) :
  fst (iter_download response download)
  = fst (download_loop download (stream response) 0).
Proof.
  unfold iter_download.
  pose proof (download_loop_returns download (stream response) 0) as Hreturns.
  destruct (download_loop download (stream response) 0) as [t r].
  cbn in Hreturns. subst r. rewrite bind_ok. cbn [fst].
  destruct (stream_error response) as [[name message]|]; cbn; apply app_nil_r.
Qed.

(** [download_response] prints the delimiter and, unless [int] rejects the
    Content-Length, adds the progress task and runs the loop. *)
Lemma download_response_shape (response : Response) (download : BinaryIO) :
  download_response' response download
  = ([ConsolePrintSyntax "" "http"], Raise ValueError)
  \/ exists total,
       fst (download_response' response download)
       = ConsolePrintSyntax "" "http"
           :: ProgressAddTask ("Downloading [bold]" ++ name download) total
           :: fst (download_loop download (stream response) 0).
Proof.
  unfold download_response. rewrite bind_emit. cbv zeta.
  pose proof (iter_download_trace response download) as Hloop.
  destruct (opt_truthy str_truthy (get (headers response) "Content-Length")).
  - destruct (get (headers response) "Content-Length") as [s|].
    + destruct (int s) as [n|].
      * right. exists (Some n). rewrite bind_ret, bind_emit. cbn [fst].
        now rewrite Hloop.
      * left. reflexivity.
    + right. exists None. rewrite bind_ret, bind_emit. cbn [fst].
      now rewrite Hloop.
  - right. exists None. rewrite bind_ret, bind_emit. cbn [fst].
    now rewrite Hloop.
Qed.

(** C7: in [download_response], every value reported to the progress task
    is the sum of the sizes of the chunks written to the file up to that
    report; the reported values never decrease; and the last one (0, the
    initial value of the task, when there is none) is the size of the file
    written.  When the download runs to its end the file holds the body
    exactly as the chunks delivered it. *)
Theorem download_progress (response : Response) (download : BinaryIO) :
  reports_track 0 (fst (download_response' response download))
  /\ StronglySorted le (reports (fst (download_response' response download)))
  /\ last (reports (fst (download_response' response download))) 0
     = List.length (file_content (fst (download_response' response download)))
  /\ (snd (download_response' response download) = Ok tt ->
      file_content (fst (download_response' response download))
      = List.concat (stream response)).
Proof.
  pose proof (download_loop_tracks download (stream response) 0) as Htrack.
  pose proof (download_loop_monotone download (stream response) 0) as [_ Hsorted].
  pose proof (download_loop_last download (stream response) 0) as Hlast.
  pose proof (download_loop_written download (stream response) 0) as Hwritten.
  destruct (download_response_shape response download) as [Hshape|[total Hshape]];
    rewrite Hshape.
  - split; [|split; [constructor|split; [reflexivity|]]].
    + intros pre completed post H.
      destruct pre as [|e [|e' pre']]; discriminate H.
    + intros Hdone. discriminate Hdone.
  - split; [|split; [exact Hsorted|split]].
    + apply reports_track_skip; [reflexivity|reflexivity|].
      apply reports_track_skip; [reflexivity|reflexivity|exact Htrack].
    + rewrite file_content_size. exact Hlast.
    + intros _. unfold file_content. cbn [written]. now rewrite Hwritten.
Qed.

(** ** Exit status *)

(** C4: when the transport fails before any response headers arrive,
    [main] prints one line, [<name of the error>: <message>], and exits with
    status 1.  Apart from the stream call and, in verbose mode, the echo of
    the request, the trace holds nothing: no response headers, no body, no
    file write. *)
Theorem transport_failure_report (o : Options) (name message : str) :
  outcome (exchange_of o) = inl (name, message) ->
  (opt_verbose o = true ->
   exists http_text, format_request_headers (sent (exchange_of o)) = Ok http_text) ->
  main' o
  = ((ClientStream (client_config o) (stream_call o)
        :: echo_of (opt_verbose o) (sent (exchange_of o))
        ++ [ConsolePrint (name ++ ": " ++ message)%string])%list,
     Raise (SystemExit 1))
  /\ console_lines (fst (main' o)) = [name ++ ": " ++ message]
  /\ written (fst (main' o)) = [].
Proof.
  intros Hfail Hecho.
  assert (Hmain : main' o
    = ((ClientStream (client_config o) (stream_call o)
          :: echo_of (opt_verbose o) (sent (exchange_of o))
          ++ [ConsolePrint (name ++ ": " ++ message)%string])%list,
       Raise (SystemExit 1))).
  { rewrite main_after_with, client_stream_phases. cbv zeta.
    rewrite (request_hooks_run _ _ _ Hecho), Hfail. reflexivity. }
  split; [exact Hmain|]. rewrite Hmain. cbn [fst].
  unfold echo_of. destruct (opt_verbose o).
  - destruct (Hecho eq_refl) as [http_text ->]. split; reflexivity.
  - split; reflexivity.
Qed.

Lemma with_stream_yields_top (o : Options) (t : Trace) (response : Response) :
  with_stream o = (t, Ok response) -> outcome (exchange_of o) = inr response.
Proof.
  rewrite client_stream_phases. cbv zeta.
  destruct (for_each _ _) as [t1 [[]|e]]; [|discriminate].
  destruct (outcome _) as [[name message]|top]; [discriminate|].
  destruct (stream_block' _ _) as [t2 [[]|e]]; [|discriminate].
  destruct (for_each _ _) as [t3 [[]|e]]; [|discriminate].
  intros H. now injection H as _ <-.
Qed.


Lemma no_exit_print_response (response : Response) :
  no_exit (print_response' response).
Proof.
  destruct (print_response_total response) as [event ->]. apply no_exit_ok.
Qed.

Lemma no_exit_print_redirects (response : Response) :
  no_exit (print_redirects' response).
Proof.
  unfold print_redirects. destruct (has_redirect_location response).
  - apply no_exit_bind; [apply no_exit_read|intros _].
    apply no_exit_bind; [apply no_exit_print_response_headers|intros _].
    apply no_exit_print_response.
  - apply no_exit_ok.
Qed.

Lemma no_exit_download_response (response : Response) (download : BinaryIO) :
  no_exit (download_response' response download).
Proof.
  unfold download_response.
  apply no_exit_bind; [apply no_exit_ok|intros _]. cbv zeta.
  apply no_exit_bind.
  - destruct (opt_truthy str_truthy _); [|apply no_exit_ok].
    destruct (get _ _) as [s|]; [|apply no_exit_ok].
    destruct (int s); [apply no_exit_ok|]. intros code. discriminate.
  - intros total. apply no_exit_bind; [apply no_exit_ok|intros _].
    apply no_exit_iter_download.
Qed.

Lemma no_exit_stream_block (download : option BinaryIO) (response : Response) :
  no_exit (stream_block' download response).
Proof.
  unfold stream_block.
  apply no_exit_bind; [apply no_exit_print_response_headers|intros _].
  destruct download as [download|]; [apply no_exit_download_response|].
  apply no_exit_bind; [apply no_exit_read|intros content].
  destruct (seq_truthy content); [|apply no_exit_ok].
  apply no_exit_bind; [apply no_exit_ok|intros _]. apply no_exit_print_response.
Qed.

Lemma no_exit_with_stream (o : Options) : no_exit (with_stream o).
Proof.
  unfold client_stream.
  apply no_exit_bind; [apply no_exit_ok|intros _]. cbv zeta.
  apply no_exit_bind.
  - apply no_exit_for_each. cbn [make_event_hooks hooks_request].
    destruct (opt_verbose o); repeat constructor.
    apply no_exit_print_request_headers.
  - intros _. destruct (outcome _) as [[name message]|response].
    + intros code. discriminate.
    + apply no_exit_bind; [apply no_exit_stream_block|intros _].
      apply no_exit_bind; [|intros _; apply no_exit_ok].
      apply no_exit_for_each. apply Forall_forall. intros hop _.
      apply no_exit_for_each. cbn [make_event_hooks hooks_response].
      destruct (opt_follow_redirects o); repeat constructor.
      apply no_exit_print_redirects.
Qed.

(** Whatever happens, [main] ends by raising, and an exit status is 0 or 1. *)
Lemma main_exit_status (o : Options) :
  (forall u, snd (main' o) <> Ok u)
  /\ forall code, snd (main' o) = Raise (SystemExit code) -> code = 0%Z \/ code = 1%Z.
Proof.
  pose proof (no_exit_with_stream o) as Hno. rewrite main_after_with.
  destruct (with_stream o) as [t [response|e]].
  - split; [discriminate|]. cbn. intros code H. injection H as <-.
    destruct (is_success response); auto.
  - destruct e as [name message| | |exit_code]; (split; [discriminate|]); cbn;
      intros code H; try discriminate H.
    + injection H as <-. now right.
    + exfalso. exact (Hno exit_code eq_refl).
Qed.

(** C1: when the exchange completes (the [with] statement ends without an
    exception, having bound the top-level response), [main] exits with
    status 0 if the status code is below 400, so for every code in
    [200, 399], and with status 1 if it is 400 or more; it exits with no
    other status. *)
Theorem exit_code_from_status (o : Options) (t : Trace) (response : Response) :
  with_stream o = (t, Ok response) ->
  outcome (exchange_of o) = inr response
  /\ main' o
     = (t, Raise (SystemExit (if (status_code response <? 400)%Z then 0 else 1)))
  /\ ((200 <= status_code response <= 399)%Z ->
      snd (main' o) = Raise (SystemExit 0))
  /\ ((400 <= status_code response)%Z ->
      snd (main' o) = Raise (SystemExit 1))
  /\ (forall code, snd (main' o) = Raise (SystemExit code) ->
                   code = 0%Z \/ code = 1%Z).
Proof.
  intros Hwith.
  assert (Hmain : main' o
    = (t, Raise (SystemExit (if (status_code response <? 400)%Z then 0 else 1)))).
  { rewrite main_after_with, Hwith. reflexivity. }
  split; [exact (with_stream_yields_top _ _ _ Hwith)|].
  split; [exact Hmain|]. rewrite Hmain. cbn [snd].
  split; [|split].
  - intros [_ Hle]. destruct (Z.ltb_spec (status_code response) 400);
      [reflexivity|lia].
  - intros Hge. destruct (Z.ltb_spec (status_code response) 400);
      [lia|reflexivity].
  - intros code H. injection H as <-.
    destruct (status_code response <? 400)%Z; auto.
Qed.

(** ** Redirects *)




End Correctness.

(** ** The statements at the sample inputs *)

Lemma exit_code_from_status_witness :
  snd (main Examples.lexers Examples.int
         (Examples.answers Examples.not_found [])
         (Examples.options None None None false false None false))
  = Raise (SystemExit 1)
  /\ snd (main Examples.lexers Examples.int
           (Examples.answers Examples.ok_json [])
           (Examples.options None None None false false None false))
     = Raise (SystemExit 0).
Proof.
  split.
  - refine (let H := exit_code_from_status Examples.lexers Examples.int
                       (Examples.answers Examples.not_found [])
                       (Examples.options None None None false false None false)
                       _ Examples.not_found eq_refl in _).
    destruct H as (_ & _ & _ & H & _). apply H. vm_compute. discriminate.
  - refine (let H := exit_code_from_status Examples.lexers Examples.int
                       (Examples.answers Examples.ok_json [])
                       (Examples.options None None None false false None false)
                       _ Examples.ok_json eq_refl in _).
    destruct H as (_ & _ & H & _). apply H. vm_compute. split; discriminate.
Defined.


Lemma body_variants_pass_through_witness :
  1 < body_variants (Examples.options None (Some "a") (Some (JInt 0))
                       false false None false)
  /\ call_method (stream_call (Examples.options None (Some "a") (Some (JInt 0))
                                 false false None false)) = "POST"
  /\ call_content (stream_call (Examples.options None (Some "a") (Some (JInt 0))
                                  false false None false)) = Some "a"
  /\ call_json (stream_call (Examples.options None (Some "a") (Some (JInt 0))
                               false false None false)) = Some (JInt 0).
Proof.
  assert (H : 1 < body_variants (Examples.options None (Some "a") (Some (JInt 0))
                                   false false None false)) by (vm_compute; lia).
  split; [exact H|].
  destruct (body_variants_pass_through Examples.lexers Examples.int
              (Examples.answers Examples.ok_json [])
              (Examples.options None (Some "a") (Some (JInt 0))
                 false false None false) H)
    as (_ & _ & Hcontent & _ & _ & Hjson & Hmethod).
  split; [apply Hmethod; reflexivity|]. split; assumption.
Defined.

(** With content and JSON both given, [main] does not stop: it calls
    [client.stream] with both, shows the response and exits with status 0. *)
Lemma several_body_variants_not_rejected :
  body_variants (Examples.options None (Some "a") (Some (JInt 1))
                   false false None false) = 2
  /\ network_calls
       (fst (main Examples.lexers Examples.int
               (Examples.answers Examples.ok_json [])
               (Examples.options None (Some "a") (Some (JInt 1))
                  false false None false)))
     = [(client_config (Examples.options None (Some "a") (Some (JInt 1))
                          false false None false),
         stream_call (Examples.options None (Some "a") (Some (JInt 1))
                        false false None false))]
  /\ snd (main Examples.lexers Examples.int
           (Examples.answers Examples.ok_json [])
           (Examples.options None (Some "a") (Some (JInt 1))
              false false None false))
     = Raise (SystemExit 0)
  /\ ~ rejected_before_network_call
         (main Examples.lexers Examples.int
            (Examples.answers Examples.ok_json [])
            (Examples.options None (Some "a") (Some (JInt 1))
               false false None false)).
Proof.
  split; [reflexivity|]. split; [reflexivity|]. split; [reflexivity|].
  intros [_ Hnone]. vm_compute in Hnone. discriminate Hnone.
Qed.

Lemma transport_failure_report_witness :
  main Examples.lexers Examples.int
    (Examples.fails_with "ConnectTimeout" "timed out")
    (Examples.options None None None true false None true)
  = ([ClientStream
        (client_config (Examples.options None None None true false None true))
        (stream_call (Examples.options None None None true false None true));
      ConsolePrintSyntax
        (join nl ["GET /y?q=1 HTTP/1.1"; "Host: example.org"; "Accept: */*";
                  "Accept: text/html"]) "http";
      ConsolePrintSyntax "" "http";
      ConsolePrint "ConnectTimeout: timed out"],
     Raise (SystemExit 1)).
Proof.
  destruct (transport_failure_report Examples.lexers Examples.int
              (Examples.fails_with "ConnectTimeout" "timed out")
              (Examples.options None None None true false None true)
              "ConnectTimeout" "timed out" eq_refl
              (fun _ => ex_intro _ _ eq_refl))
    as (Hmain & _ & _).
  rewrite Hmain. reflexivity.
Defined.

(** C5: at the options of [httpx URL --json 0] (no method, no content,
    form data or files, the JSON value 0) [main] calls [client.stream] with
    the JSON value as the body and with GET as the method: line 394 tests the
    truth value of the JSON, and 0 is false for Python. *)
Theorem false_json_defaults_to_get :
  opt_method (Examples.options None None (Some (JInt 0)) false false None false)
  = None
  /\ body_variants (Examples.options None None (Some (JInt 0))
                      false false None false) = 1
  /\ network_calls
       (fst (main Examples.lexers Examples.int
               (Examples.answers Examples.ok_json [])
               (Examples.options None None (Some (JInt 0))
                  false false None false)))
     = [(client_config (Examples.options None None (Some (JInt 0))
                          false false None false),
         stream_call (Examples.options None None (Some (JInt 0))
                        false false None false))]
  /\ call_json (stream_call (Examples.options None None (Some (JInt 0))
                               false false None false)) = Some (JInt 0)
  /\ call_method (stream_call (Examples.options None None (Some (JInt 0))
                                 false false None false)) = "GET".
Proof.
  split; [reflexivity|]. split; [reflexivity|]. split; [reflexivity|].
  split; reflexivity.
Qed.


Lemma download_progress_witness :
  reports (fst (download_response Examples.int Examples.three_chunks
                  Examples.out_bin)) = [3; 5; 6]
  /\ file_content (fst (download_response Examples.int Examples.three_chunks
                          Examples.out_bin)) = Examples.b "abcdef"
  /\ last (reports (fst (download_response Examples.int Examples.three_chunks
                           Examples.out_bin))) 0
     = List.length (file_content (fst (download_response Examples.int
                                         Examples.three_chunks Examples.out_bin))).
Proof.
  split; [reflexivity|]. split; [reflexivity|].
  destruct (download_progress Examples.int Examples.three_chunks Examples.out_bin)
    as (_ & _ & H & _).
  exact H.
Defined.

Lemma body_shown_iff_content_witness :
  stream_block Examples.lexers Examples.int None Examples.moved
  = ([ConsolePrintSyntax
        (join nl ["HTTP/2 301 Moved Permanently"; "Location: https://example.org/y"])
        "http"], Ok tt)
  /\ stream_block Examples.lexers Examples.int None Examples.not_found
     = ([ConsolePrintSyntax
           (join nl ["HTTP/1.1 404 Not Found"; "Content-Type: text/html"]) "http";
         ConsolePrintSyntax "" "http";
         ConsolePrintSyntax "<h1>gone</h1>" "HTML"], Ok tt).
Proof.
  split.
  - destruct (body_shown_iff_content Examples.lexers Examples.int Examples.moved
                _ eq_refl eq_refl) as (Hempty & _).
    rewrite (Hempty eq_refl). reflexivity.
  - destruct (body_shown_iff_content Examples.lexers Examples.int
                Examples.not_found _ eq_refl eq_refl) as (_ & Hbody).
    destruct Hbody as (body & Hprint & Hblock); [vm_compute; discriminate|].
    rewrite Hblock. vm_compute in Hprint. injection Hprint as <-. reflexivity.
Defined.

Lemma request_line_is_http11_witness :
  cfg_http2 (client_config (Examples.options None None None false true None true))
  = true
  /\ http_version Examples.moved = "HTTP/2"
  /\ exists rest,
       fst (main Examples.lexers Examples.int
              (Examples.answers Examples.moved [])
              (Examples.options None None None false true None true))
       = ClientStream
           (client_config (Examples.options None None None false true None true))
           (stream_call (Examples.options None None None false true None true))
           :: ConsolePrintSyntax
                (join nl ["GET /y?q=1 HTTP/1.1"; "Host: example.org";
                          "Accept: */*"; "Accept: text/html"]) "http"
           :: rest.
Proof.
  split; [reflexivity|]. split; [reflexivity|].
  destruct (request_line_is_http11 Examples.lexers Examples.int
              (Examples.answers Examples.moved [])
              (Examples.options None None None false true None true)
              _ eq_refl eq_refl) as (Hprinted & _).
  exact Hprinted.
Defined.

(** ** Further behaviour of the program *)

Lemma only_events_bind {A B : Type} (p : Event -> bool) (m : M A) (k : A -> M B) :
  only_events p m -> (forall a, only_events p (k a)) -> only_events p (bind m k).
Proof.
  unfold only_events. intros Hm Hk. destruct m as [t [a|e]].
  - rewrite bind_ok. cbn [fst] in *. apply Forall_app. split; [exact Hm|apply Hk].
  - exact Hm.
Qed.

Lemma only_events_nil {A : Type} (p : Event -> bool) (r : Result A) :
  only_events p ([], r).
Proof.
  constructor.
Qed.

Lemma only_events_emit (p : Event -> bool) (e : Event) :
  p e = true -> only_events p (emit e).
Proof.
  intros H. constructor; [exact H|constructor].
Qed.

Lemma only_events_for_each {A : Type} (p : Event -> bool) (xs : list A)
  (f : A -> M unit) :
  Forall (fun x => only_events p (f x)) xs -> only_events p (for_each xs f).
Proof.
  induction 1 as [|x rest Hx _ IH]; cbn [for_each].
  - apply only_events_nil.
  - apply only_events_bind; [exact Hx|intros _; exact IH].
Qed.

Lemma raises_only_bind {A B : Type} (allowed : Exception -> Prop) (m : M A)
  (k : A -> M B) :
  raises_only allowed m -> (forall a, raises_only allowed (k a)) ->
  raises_only allowed (bind m k).
Proof.
  intros Hm Hk e. destruct m as [t [a|e']].
  - rewrite bind_ok. apply Hk.
  - rewrite bind_raise. cbn. intros H. injection H as ->. exact (Hm e eq_refl).
Qed.

Lemma raises_only_ok {A : Type} (allowed : Exception -> Prop) (t : Trace) (a : A) :
  raises_only allowed (t, Ok a).
Proof.
  intros e H. discriminate H.
Qed.

Lemma raises_only_for_each {A : Type} (allowed : Exception -> Prop) (xs : list A)
  (f : A -> M unit) :
  Forall (fun x => raises_only allowed (f x)) xs ->
  raises_only allowed (for_each xs f).
Proof.
  induction 1 as [|x rest Hx _ IH]; cbn [for_each].
  - apply raises_only_ok.
  - apply raises_only_bind; [exact Hx|intros _; exact IH].
Qed.

Lemma raises_only_weaken {A : Type} (P Q : Exception -> Prop) (m : M A) :
  (forall e, P e -> Q e) -> raises_only P m -> raises_only Q m.
Proof.
  intros HPQ Hm e He. apply HPQ, (Hm e He).
Qed.

Lemma only_events_weaken {A : Type} (p q : Event -> bool) (m : M A) :
  (forall e, p e = true -> q e = true) -> only_events p m -> only_events q m.
Proof.
  intros Hpq. unfold only_events. apply Forall_impl. exact Hpq.
Qed.

Lemma only_console_print_request_headers (request : Request) :
  only_events is_console (print_request_headers request).
Proof.
  unfold print_request_headers.
  apply only_events_bind; [apply only_events_nil|intros http_text].
  apply only_events_bind; [now apply only_events_emit|intros _].
  now apply only_events_emit.
Qed.

Lemma only_console_print_response_headers (response : Response) :
  only_events is_console (print_response_headers response).
Proof.
  unfold print_response_headers.
  apply only_events_bind; [apply only_events_nil|intros http_text].
  now apply only_events_emit.
Qed.

Lemma only_console_read (response : Response) :
  only_events is_console (read response).
Proof.
  unfold read. destruct (stream_error response) as [[name message]|];
    apply only_events_nil.
Qed.

Lemma only_download_loop (download : BinaryIO) (chunks : list bytes) (n : nat) :
  only_events is_download_event (download_loop download chunks n).
Proof.
  revert n. induction chunks as [|chunk rest IH]; intros n.
  - apply only_events_nil.
  - rewrite download_loop_step. constructor; [reflexivity|].
    constructor; [reflexivity|apply IH].
Qed.

Lemma only_download_iter_download (response : Response) (download : BinaryIO) :
  only_events is_download_event (iter_download response download).
Proof.
  unfold iter_download.
  apply only_events_bind; [apply only_download_loop|intros _].
  destruct (stream_error response) as [[name message]|]; apply only_events_nil.
Qed.

Lemma raises_only_print_request_headers (request : Request) :
  raises_only (eq UnicodeDecodeError) (print_request_headers request).
Proof.
  destruct (format_request_headers request) as [http_text|e] eqn:H.
  - rewrite (print_request_headers_ok _ _ H). apply raises_only_ok.
  - unfold print_request_headers. rewrite H.
    rewrite (format_request_headers_raises _ _ H).
    intros e' He. now injection He as <-.
Qed.

Lemma raises_only_print_response_headers (response : Response) :
  raises_only (eq UnicodeDecodeError) (print_response_headers response).
Proof.
  destruct (format_response_headers response) as [http_text|e] eqn:H.
  - rewrite (print_response_headers_ok _ _ H). apply raises_only_ok.
  - unfold print_response_headers. rewrite H.
    rewrite (format_response_headers_raises _ _ H).
    intros e' He. now injection He as <-.
Qed.

(** The exception is the [RequestError] of a broken transfer. *)
Lemma raises_only_read (response : Response) :
  raises_only (fun e => exists name message,
                   stream_error response = Some (name, message)
                   /\ e = RequestError name message)
    (read response).
Proof.
  unfold read. destruct (stream_error response) as [[name message]|].
  - intros e He. injection He as <-. now exists name, message.
  - apply raises_only_ok.
Qed.

Lemma raises_only_iter_download (response : Response) (download : BinaryIO) :
  raises_only (fun e => exists name message,
                   stream_error response = Some (name, message)
                   /\ e = RequestError name message)
    (iter_download response download).
Proof.
  unfold iter_download. apply raises_only_bind.
  - intros e He. rewrite download_loop_returns in He. discriminate He.
  - intros _. destruct (stream_error response) as [[name message]|].
    + intros e He. injection He as <-. now exists name, message.
    + apply raises_only_ok.
Qed.

Lemma written_app (t1 t2 : Trace) :
  written (t1 ++ t2)%list = (written t1 ++ written t2)%list.
Proof.
  induction t1 as [|e t1 IH]; [reflexivity|].
  destruct e; cbn; rewrite ?IH; reflexivity.
Qed.

Lemma console_lines_app (t1 t2 : Trace) :
  console_lines (t1 ++ t2)%list = (console_lines t1 ++ console_lines t2)%list.
Proof.
  induction t1 as [|e t1 IH]; [reflexivity|].
  destruct e; cbn; rewrite ?IH; reflexivity.
Qed.

Lemma download_events_no_lines (t : Trace) :
  Forall (fun e => is_download_event e = true) t -> console_lines t = [].
Proof.
  induction 1 as [|e t He _ IH]; [reflexivity|].
  destruct e; try discriminate He; exact IH.
Qed.

Lemma echo_of_quiet (verbose : bool) (request : Request) :
  written (echo_of verbose request) = []
  /\ console_lines (echo_of verbose request) = [].
Proof.
  unfold echo_of. destruct verbose; [|now split].
  destruct (format_request_headers request); now split.
Qed.

(** ** Text helpers *)

Lemma space_is_no_semicolon (c : ascii) :
  is_space c = true -> Ascii.eqb c ";" = false.
Proof.
  intros H. destruct (Ascii.eqb_spec c ";") as [->|_]; [discriminate H|reflexivity].
Qed.

Lemma before_semicolon_app (a b : str) :
  before_semicolon a = a ->
  before_semicolon (a ++ b) = a ++ before_semicolon b.
Proof.
  induction a as [|c a IH]; cbn [append before_semicolon]; [reflexivity|].
  destruct (Ascii.eqb c ";"); [discriminate|].
  intros H. injection H as H. now rewrite (IH H).
Qed.

Lemma before_semicolon_space (w : str) :
  all_space w = true -> before_semicolon w = w.
Proof.
  induction w as [|c w IH]; cbn [all_space before_semicolon]; [reflexivity|].
  intros H. apply andb_prop in H as [Hc Hw].
  now rewrite (space_is_no_semicolon _ Hc), (IH Hw).
Qed.

Lemma lstrip_space (w s : str) :
  all_space w = true -> lstrip (w ++ s) = lstrip s.
Proof.
  induction w as [|c w IH]; cbn [all_space append]; [reflexivity|].
  intros H. apply andb_prop in H as [Hc Hw].
  cbn [lstrip]. rewrite Hc. exact (IH Hw).
Qed.

Lemma lstrip_all_space (w : str) :
  all_space w = true -> lstrip w = "".
Proof.
  induction w as [|c w IH]; cbn [all_space lstrip]; [reflexivity|].
  intros H. apply andb_prop in H as [Hc Hw]. now rewrite Hc, (IH Hw).
Qed.

Lemma rstrip_all_space (w : str) :
  all_space w = true -> rstrip w = "".
Proof.
  induction w as [|c w IH]; cbn [all_space rstrip]; [reflexivity|].
  intros H. apply andb_prop in H as [Hc Hw]. now rewrite (IH Hw), Hc.
Qed.

Lemma rstrip_space (s w : str) :
  all_space w = true -> rstrip (s ++ w) = rstrip s.
Proof.
  intros Hw. induction s as [|c s IH]; cbn [append].
  - now rewrite (rstrip_all_space _ Hw).
  - cbn [rstrip]. now rewrite IH.
Qed.

Lemma strip_spaces (w1 s w2 : str) :
  all_space w1 = true -> all_space w2 = true ->
  strip (w1 ++ s ++ w2) = strip s.
Proof.
  intros H1 H2. unfold strip. rewrite (lstrip_space _ _ H1).
  induction s as [|c s IH]; cbn [append].
  - now rewrite (lstrip_all_space _ H2).
  - cbn [lstrip]. destruct (is_space c); [exact IH|].
    change (String c (s ++ w2)) with (String c s ++ w2).
    now apply rstrip_space.
Qed.

(** ** Dicts *)

Lemma dict_get_set (d : list (str * str)) (k v k' : str) :
  dict_get (dict_set d k v) k'
  = if String.eqb k k' then Some v else dict_get d k'.
Proof.
  induction d as [|[k0 v0] d IH]; cbn [dict_set dict_get].
  - reflexivity.
  - destruct (String.eqb_spec k0 k) as [->|Hk0]; cbn [dict_get].
    + destruct (String.eqb k k'); reflexivity.
    + rewrite IH. destruct (String.eqb_spec k0 k') as [->|_]; [|reflexivity].
      destruct (String.eqb_spec k k') as [->|_]; [contradiction|reflexivity].
Qed.

Lemma dict_set_keys (d : list (str * str)) (k v : str) :
  map fst (dict_set d k v)
  = if existsb (String.eqb k) (map fst d) then map fst d
    else (map fst d ++ [k])%list.
Proof.
  induction d as [|[k0 v0] d IH]; cbn [dict_set map fst existsb]; [reflexivity|].
  rewrite (String.eqb_sym k k0).
  destruct (String.eqb k0 k); cbn [map fst orb]; [reflexivity|].
  rewrite IH. now destruct (existsb (String.eqb k) (map fst d)).
Qed.

Lemma dict_set_nodup (d : list (str * str)) (k v : str) :
  NoDup (map fst d) -> NoDup (map fst (dict_set d k v)).
Proof.
  intros Hd. rewrite dict_set_keys.
  destruct (existsb (String.eqb k) (map fst d)) eqn:Hin; [exact Hd|].
  apply NoDup_app; [exact Hd|repeat constructor; intros []|].
  intros k' Hk' [<-|[]].
  assert (existsb (String.eqb k) (map fst d) = true); [|congruence].
  apply existsb_exists. exists k. split; [exact Hk'|apply String.eqb_refl].
Qed.

Lemma fold_dict_set (pairs d : list (str * str)) :
  NoDup (map fst d) ->
  NoDup (map fst (fold_left (fun d kv => dict_set d (fst kv) (snd kv)) pairs d))
  /\ forall k,
       dict_get (fold_left (fun d kv => dict_set d (fst kv) (snd kv)) pairs d) k
       = match last_value pairs k with
         | Some v => Some v
         | None => dict_get d k
         end.
Proof.
  revert d. induction pairs as [|[k0 v0] pairs IH]; intros d Hd; cbn [fold_left].
  - split; [exact Hd|reflexivity].
  - destruct (IH (dict_set d k0 v0) (dict_set_nodup d k0 v0 Hd)) as [Hnodup Hget].
    split; [exact Hnodup|]. intros k. rewrite Hget. cbn [fst snd last_value].
    destruct (last_value pairs k); [reflexivity|].
    rewrite dict_get_set. now destruct (String.eqb k0 k).
Qed.

Section Behaviour.

Variable get_lexer_for_mimetype : str -> option str.
Variable int : str -> option Z.
Variable transport : Transport.

Local Abbreviation main' := (main get_lexer_for_mimetype int transport).
Local Abbreviation stream_block' := (stream_block get_lexer_for_mimetype int).
Local Abbreviation print_redirects' := (print_redirects get_lexer_for_mimetype).
Local Abbreviation print_response' := (print_response get_lexer_for_mimetype).
Local Abbreviation get_lexer_for_response' :=
  (get_lexer_for_response get_lexer_for_mimetype).
Local Abbreviation download_response' := (download_response int).
Local Abbreviation make_event_hooks' := (make_event_hooks get_lexer_for_mimetype).
Local Abbreviation exchange_of o := (transport (client_config o) (stream_call o)).
Local Abbreviation with_stream o :=
  (client_stream transport (client_config o)
     (make_event_hooks' (opt_verbose o) (opt_follow_redirects o))
     (stream_call o) (stream_block' (opt_download o))).

(** The exceptions the block under [with] and the hooks can end in. *)
Local Abbreviation inside download :=
  (fun e => (exists name message, e = RequestError name message)
            \/ passes_through download e).

Lemma only_console_print_response (response : Response) :
  only_events is_console (print_response' response).
Proof.
  destruct (print_response_total get_lexer_for_mimetype response)
    as [event Hevent].
  rewrite Hevent. unfold print_response in Hevent.
  destruct (str_truthy _).
  - destruct (response_text_total (get_lexer_for_response' response) response)
      as [body_text Htext].
    rewrite Htext, bind_lift_ok in Hevent. injection Hevent as <-.
    now apply only_events_emit.
  - injection Hevent as <-. now apply only_events_emit.
Qed.

Lemma only_console_print_redirects (response : Response) :
  only_events is_console (print_redirects' response).
Proof.
  unfold print_redirects. destruct (has_redirect_location response).
  - apply only_events_bind; [apply only_console_read|intros _].
    apply only_events_bind; [apply only_console_print_response_headers|intros _].
    apply only_console_print_response.
  - apply only_events_nil.
Qed.

Lemma raises_only_print_redirects (download : option BinaryIO) (response : Response) :
  raises_only (inside download) (print_redirects' response).
Proof.
  unfold print_redirects. destruct (has_redirect_location response).
  - apply raises_only_bind.
    + eapply raises_only_weaken; [|apply raises_only_read].
      intros e (name & message & _ & ->). left. now exists name, message.
    + intros _. apply raises_only_bind.
      * eapply raises_only_weaken; [|apply raises_only_print_response_headers].
        intros e <-. right. now left.
      * intros _.
        destruct (print_response_total get_lexer_for_mimetype response)
          as [event ->].
        apply raises_only_ok.
  - apply raises_only_ok.
Qed.

Lemma only_events_download_response (response : Response) (download : BinaryIO) :
  only_events (fun e => is_console e || is_download_event e)
    (download_response' response download).
Proof.
  unfold download_response.
  apply only_events_bind; [now apply only_events_emit|intros _]. cbv zeta.
  apply only_events_bind.
  - destruct (opt_truthy str_truthy _); [|apply only_events_nil].
    destruct (get _ _) as [s|]; [|apply only_events_nil].
    destruct (int s); apply only_events_nil.
  - intros total. apply only_events_bind; [now apply only_events_emit|intros _].
    eapply only_events_weaken; [|apply only_download_iter_download].
    intros e ->. apply orb_true_r.
Qed.

Lemma raises_only_download_response (response : Response) (download : BinaryIO) :
  raises_only (inside (Some download)) (download_response' response download).
Proof.
  unfold download_response.
  apply raises_only_bind; [apply raises_only_ok|intros _]. cbv zeta.
  apply raises_only_bind.
  - destruct (opt_truthy str_truthy _); [|apply raises_only_ok].
    destruct (get _ _) as [s|]; [|apply raises_only_ok].
    destruct (int s); [apply raises_only_ok|].
    intros e He. injection He as <-. right. right. split; [reflexivity|discriminate].
  - intros total. apply raises_only_bind; [apply raises_only_ok|intros _].
    eapply raises_only_weaken; [|apply raises_only_iter_download].
    intros e (name & message & _ & ->). left. now exists name, message.
Qed.

Lemma only_console_stream_block (response : Response) :
  only_events is_console (stream_block' None response).
Proof.
  unfold stream_block.
  apply only_events_bind; [apply only_console_print_response_headers|intros _].
  apply only_events_bind; [apply only_console_read|intros content].
  destruct (seq_truthy content); [|apply only_events_nil].
  apply only_events_bind; [now apply only_events_emit|intros _].
  apply only_console_print_response.
Qed.

Lemma only_events_stream_block (download : option BinaryIO) (response : Response) :
  only_events (fun e => is_console e || is_download_event e)
    (stream_block' download response).
Proof.
  destruct download as [download|].
  - unfold stream_block. apply only_events_bind.
    + eapply only_events_weaken; [|apply only_console_print_response_headers].
      intros e ->. reflexivity.
    + intros _. apply only_events_download_response.
  - eapply only_events_weaken; [|apply only_console_stream_block].
    intros e ->. reflexivity.
Qed.

Lemma raises_only_stream_block (download : option BinaryIO) (response : Response) :
  raises_only (inside download) (stream_block' download response).
Proof.
  unfold stream_block. apply raises_only_bind.
  - eapply raises_only_weaken; [|apply raises_only_print_response_headers].
    intros e <-. right. now left.
  - intros _. destruct download as [download|].
    + apply raises_only_download_response.
    + apply raises_only_bind.
      * eapply raises_only_weaken; [|apply raises_only_read].
        intros e (name & message & _ & ->). left. now exists name, message.
      * intros content. destruct (seq_truthy content); [|apply raises_only_ok].
        apply raises_only_bind; [apply raises_only_ok|intros _].
        destruct (print_response_total get_lexer_for_mimetype response)
          as [event ->].
        apply raises_only_ok.
Qed.

(** What [client.stream] does after the call is recorded. *)
Lemma with_stream_events (o : Options) (p : Event -> bool) :
  (forall e, is_console e = true -> p e = true) ->
  (forall response, only_events p (stream_block' (opt_download o) response)) ->
  exists rest,
    fst (with_stream o) = ClientStream (client_config o) (stream_call o) :: rest
    /\ Forall (fun e => p e = true) rest.
Proof.
  intros Hconsole Hblock. unfold client_stream. rewrite bind_emit. cbn [fst].
  eexists. split; [reflexivity|]. cbv zeta.
  apply only_events_bind.
  - apply only_events_for_each. cbn [make_event_hooks hooks_request].
    destruct (opt_verbose o); repeat constructor.
    eapply only_events_weaken; [exact Hconsole|].
    apply only_console_print_request_headers.
  - intros _. destruct (outcome _) as [[name message]|response];
      [apply only_events_nil|].
    apply only_events_bind; [apply Hblock|intros _].
    apply only_events_bind; [|intros _; apply only_events_nil].
    apply only_events_for_each. apply Forall_forall. intros hop _.
    apply only_events_for_each. cbn [make_event_hooks hooks_response].
    destruct (opt_follow_redirects o); repeat constructor.
    eapply only_events_weaken; [exact Hconsole|].
    apply only_console_print_redirects.
Qed.

Lemma raises_only_with_stream (o : Options) :
  raises_only (inside (opt_download o)) (with_stream o).
Proof.
  unfold client_stream.
  apply raises_only_bind; [apply raises_only_ok|intros _]. cbv zeta.
  apply raises_only_bind.
  - apply raises_only_for_each. cbn [make_event_hooks hooks_request].
    destruct (opt_verbose o); [constructor; [|constructor]|constructor].
    eapply raises_only_weaken; [|apply raises_only_print_request_headers].
    intros e <-. right. now left.
  - intros _. destruct (outcome _) as [[name message]|response].
    + intros e He. injection He as <-. left. now exists name, message.
    + apply raises_only_bind; [apply raises_only_stream_block|intros _].
      apply raises_only_bind; [|intros _; apply raises_only_ok].
      apply raises_only_for_each. apply Forall_forall. intros hop _.
      apply raises_only_for_each. cbn [make_event_hooks hooks_response].
      destruct (opt_follow_redirects o); [constructor; [|constructor]|constructor].
      apply raises_only_print_redirects.
Qed.

(** The trace of [main] is that of the [with] statement, followed by the
    error line when a [RequestError] was caught. *)
Lemma main_trace (o : Options) :
  exists tail,
    fst (main' o) = (fst (with_stream o) ++ tail)%list
    /\ Forall (fun e => is_console e = true) tail.
Proof.
  rewrite main_after_with. destruct (with_stream o) as [t [response|e]].
  - exists []. cbn. now rewrite app_nil_r.
  - destruct e as [name message| | |code].
    + eexists. split; [reflexivity|]. repeat constructor.
    + exists []. cbn. now rewrite app_nil_r.
    + exists []. cbn. now rewrite app_nil_r.
    + exists []. cbn. now rewrite app_nil_r.
Qed.

Lemma no_network_calls (t : Trace) :
  Forall (fun e => is_console e || is_download_event e = true) t ->
  network_calls t = [].
Proof.
  induction 1 as [|e t He _ IH]; [reflexivity|].
  destruct e; try discriminate He; exact IH.
Qed.

Lemma console_writes_nothing (t : Trace) :
  Forall (fun e => is_console e = true) t -> written t = [] /\ reports t = [].
Proof.
  induction 1 as [|e t He _ IH]; [now split|].
  destruct e; try discriminate He; exact IH.
Qed.

(** X1: every run of [main] makes exactly one call of [client.stream], as
    the first thing it does, with the client configuration and the call
    arguments built from the options; whatever follows is console output or
    the progress and writes of a download. *)
Theorem main_makes_one_network_call (o : Options) :
  exists rest,
    fst (main' o) = ClientStream (client_config o) (stream_call o) :: rest
    /\ Forall (fun e => is_console e || is_download_event e = true) rest
    /\ network_calls (fst (main' o)) = [(client_config o, stream_call o)].
Proof.
  destruct (main_trace o) as (tail & Hmain & Htail).
  destruct (with_stream_events o (fun e => is_console e || is_download_event e))
    as (rest & Hwith & Hrest).
  { intros e ->. reflexivity. }
  { intros response. apply only_events_stream_block. }
  assert (Hall : Forall (fun e => is_console e || is_download_event e = true)
                   (rest ++ tail)).
  { apply Forall_app. split; [exact Hrest|].
    eapply Forall_impl; [|exact Htail]. intros e He. cbn in He. now rewrite He. }
  exists (rest ++ tail)%list. rewrite Hmain, Hwith.
  split; [reflexivity|]. split; [exact Hall|].
  cbn [app network_calls]. now rewrite (no_network_calls _ Hall).
Qed.

(** X2: without a download target, [main] touches no file and no progress
    display: after the stream call its trace is console output only, whatever
    the transport answers and whatever the hooks are given. *)
Theorem no_download_only_console (o : Options) :
  opt_download o = None ->
  exists rest,
    fst (main' o) = ClientStream (client_config o) (stream_call o) :: rest
    /\ Forall (fun e => is_console e = true) rest
    /\ written (fst (main' o)) = []
    /\ reports (fst (main' o)) = [].
Proof.
  intros Hdownload.
  destruct (main_trace o) as (tail & Hmain & Htail).
  destruct (with_stream_events o is_console) as (rest & Hwith & Hrest).
  { auto. }
  { intros response. rewrite Hdownload. apply only_console_stream_block. }
  assert (Hall : Forall (fun e => is_console e = true) (rest ++ tail)).
  { apply Forall_app. now split. }
  exists (rest ++ tail)%list. rewrite Hmain, Hwith.
  split; [reflexivity|]. split; [exact Hall|].
  cbn [app written reports]. exact (console_writes_nothing _ Hall).
Qed.

(** X3: [main] never returns normally.  It ends with [SystemExit(0)] or
    [SystemExit(1)], or lets through one of two exceptions: the
    [UnicodeDecodeError] of a header that is not ASCII, or, only when
    downloading, the [ValueError] of [int] on the Content-Length.  A
    [RequestError] never leaves [main]. *)
Theorem main_endings (o : Options) :
  (forall u, snd (main' o) <> Ok u)
  /\ (forall e, snd (main' o) = Raise e ->
        e = SystemExit 0 \/ e = SystemExit 1 \/ passes_through (opt_download o) e)
  /\ (forall name message, snd (main' o) <> Raise (RequestError name message)).
Proof.
  pose proof (raises_only_with_stream o) as Hinside.
  assert (Hends : forall e, snd (main' o) = Raise e ->
            e = SystemExit 0 \/ e = SystemExit 1
            \/ passes_through (opt_download o) e).
  { rewrite main_after_with.
    destruct (with_stream o) as [t [response|e0]].
    - cbn. intros e He. injection He as <-.
      destruct (is_success response); auto.
    - destruct (Hinside e0 eq_refl) as [(name & message & ->)|Hpass].
      + cbn. intros e He. injection He as <-. auto.
      + destruct Hpass as [->|[-> Hd]]; cbn; intros e He; injection He as <-;
          right; right; [now left|now right]. }
  split; [|split; [exact Hends|]].
  - rewrite main_after_with.
    destruct (with_stream o) as [t [response|e0]]; [discriminate|].
    destruct e0; discriminate.
  - intros name message He.
    destruct (Hends _ He) as [H|[H|[H|[H _]]]]; discriminate H.
Qed.

(** ** Downloads: the Content-Length header *)

Lemma iter_download_eq (response : Response) (download : BinaryIO) :
  iter_download response download
  = (fst (download_loop download (stream response) 0), transfer_result response).
Proof.
  unfold iter_download, transfer_result.
  pose proof (download_loop_returns download (stream response) 0) as Hreturns.
  destruct (download_loop download (stream response) 0) as [t r].
  cbn in Hreturns. subst r. rewrite bind_ok. cbn [fst].
  destruct (stream_error response) as [[name message]|]; cbn;
    now rewrite app_nil_r.
Qed.

Lemma download_response_with_total (response : Response) (download : BinaryIO)
  (total : option Z) :
  (if opt_truthy str_truthy (get (headers response) "Content-Length") then
     match get (headers response) "Content-Length" with
     | Some s => match int s with
                 | Some n => ret (Some n)
                 | None => raise ValueError
                 end
     | None => ret None
     end
   else ret None) = ret total ->
  download_response' response download
  = (ConsolePrintSyntax "" "http"
       :: ProgressAddTask ("Downloading [bold]" ++ name download) total
       :: fst (download_loop download (stream response) 0),
     transfer_result response).
Proof.
  intros Htotal. unfold download_response. rewrite bind_emit. cbv zeta.
  rewrite Htotal, bind_ret, bind_emit, iter_download_eq. reflexivity.
Qed.

Lemma download_response_no_length (response : Response) (download : BinaryIO) :
  no_content_length response ->
  download_response' response download
  = (ConsolePrintSyntax "" "http"
       :: ProgressAddTask ("Downloading [bold]" ++ name download) None
       :: fst (download_loop download (stream response) 0),
     transfer_result response).
Proof.
  intros Hnone. apply download_response_with_total.
  destruct Hnone as [-> | ->]; reflexivity.
Qed.

(** X4: when the response has no Content-Length header, or an empty one,
    [download_response] adds the progress task without a total, never calls
    [int], and downloads: each chunk is written and reported, and the result
    is that of the transfer. *)
Theorem download_without_content_length (response : Response)
  (download : BinaryIO) :
  no_content_length response ->
  download_response' response download
  = (ConsolePrintSyntax "" "http"
       :: ProgressAddTask ("Downloading [bold]" ++ name download) None
       :: fst (download_loop download (stream response) 0),
     transfer_result response)
  /\ written (fst (download_response' response download)) = stream response.
Proof.
  intros Hnone.
  assert (H : download_response' response download
              = (ConsolePrintSyntax "" "http"
                   :: ProgressAddTask ("Downloading [bold]" ++ name download) None
                   :: fst (download_loop download (stream response) 0),
                 transfer_result response)).
  { now apply download_response_no_length. }
  split; [exact H|]. rewrite H. cbn [fst written].
  apply download_loop_written.
Qed.

(** X5: when the Content-Length header is not empty and [int] rejects it,
    [download_response] raises [ValueError] right after the delimiter: no
    progress task is added and nothing is written to the file, whatever the
    body holds.  When [int] accepts it, its value is the total of the task. *)
Theorem download_content_length (response : Response) (download : BinaryIO)
  (s : str) :
  get (headers response) "Content-Length" = Some s ->
  s <> "" ->
  (int s = None ->
   download_response' response download
   = ([ConsolePrintSyntax "" "http"], Raise ValueError))
  /\ (forall n, int s = Some n ->
        download_response' response download
        = (ConsolePrintSyntax "" "http"
             :: ProgressAddTask ("Downloading [bold]" ++ name download) (Some n)
             :: fst (download_loop download (stream response) 0),
           transfer_result response)).
Proof.
  intros Hget Hs.
  assert (Htruthy : opt_truthy str_truthy (get (headers response) "Content-Length")
                    = true).
  { rewrite Hget. destruct s; [contradiction|reflexivity]. }
  split.
  - intros Hint. unfold download_response. rewrite bind_emit. cbv zeta.
    rewrite Htruthy, Hget, Hint. reflexivity.
  - intros n Hint. apply download_response_with_total.
    now rewrite Htruthy, Hget, Hint.
Qed.

(** ** Runs of [main] that break off *)

Lemma no_response_hooks (verbose : bool) (hops : list Response) :
  for_each hops
    (fun hop => for_each (hooks_response (make_event_hooks' verbose false))
                  (fun hook => hook hop))
  = ([], Ok tt).
Proof.
  cbn [make_event_hooks hooks_response for_each].
  induction hops as [|hop rest IH]; cbn [for_each]; [reflexivity|].
  now rewrite bind_ret.
Qed.

(** [main] when the block under [with] raises [e] on the response. *)
Lemma main_when_block_raises (o : Options) (response : Response) (t : Trace)
  (e : Exception) :
  outcome (exchange_of o) = inr response ->
  (opt_verbose o = true ->
   exists http_text, format_request_headers (sent (exchange_of o)) = Ok http_text) ->
  stream_block' (opt_download o) response = (t, Raise e) ->
  with_stream o
  = ((ClientStream (client_config o) (stream_call o)
        :: echo_of (opt_verbose o) (sent (exchange_of o)) ++ t)%list, Raise e).
Proof.
  intros Htop Hecho Hblock. rewrite client_stream_phases. cbv zeta.
  now rewrite (request_hooks_run _ _ _ _ Hecho), Htop, Hblock.
Qed.

(** X6: when the transfer of the body breaks off after the headers arrived
    (no download target), [main] has printed the response headers, prints
    the one line of the error and exits with status 1, whatever the status
    code of the response; no body is shown and the on-response hooks do not
    run. *)
Theorem broken_transfer_report (o : Options) (response : Response)
  (http_text name message : str) :
  opt_download o = None ->
  outcome (exchange_of o) = inr response ->
  (opt_verbose o = true ->
   exists request_text,
     format_request_headers (sent (exchange_of o)) = Ok request_text) ->
  format_response_headers response = Ok http_text ->
  stream_error response = Some (name, message) ->
  main' o
  = ((ClientStream (client_config o) (stream_call o)
        :: echo_of (opt_verbose o) (sent (exchange_of o))
        ++ [ConsolePrintSyntax http_text "http";
            ConsolePrint (name ++ ": " ++ message)%string])%list,
     Raise (SystemExit 1)).
Proof.
  intros Hdownload Htop Hecho Htext Hbroken.
  assert (Hblock : stream_block' (opt_download o) response
                   = ([ConsolePrintSyntax http_text "http"],
                      Raise (RequestError name message))).
  { rewrite Hdownload. unfold stream_block.
    rewrite (print_response_headers_ok _ _ Htext), bind_ok.
    unfold read. rewrite Hbroken. reflexivity. }
  rewrite main_after_with, (main_when_block_raises _ _ _ _ Htop Hecho Hblock).
  cbn [app]. now rewrite <- app_assoc.
Qed.

Lemma download_response_started (response : Response) (download : BinaryIO) :
  length_accepted int response ->
  exists total,
    download_response' response download
    = (ConsolePrintSyntax "" "http"
         :: ProgressAddTask ("Downloading [bold]" ++ name download) total
         :: fst (download_loop download (stream response) 0),
       transfer_result response).
Proof.
  intros Haccepted.
  destruct (get (headers response) "Content-Length") as [s|] eqn:Hget.
  - destruct s as [|c s'].
    + exists None. apply download_response_no_length. now right.
    + destruct (int (String c s')) as [n|] eqn:Hint.
      * exists (Some n). apply download_response_with_total.
        now rewrite Hget, Hint.
      * exfalso. apply (Haccepted (String c s') Hget); [discriminate|exact Hint].
  - exists None. apply download_response_no_length. now left.
Qed.

(** X7: when a download breaks off (the Content-Length, if there is one,
    being one that [int] accepts, so that the download started), the chunks
    received so far are in the file, each reported to the progress task;
    [main] then prints the one line of the error and exits with status 1. *)
Theorem broken_download_keeps_chunks (o : Options) (response : Response)
  (download : BinaryIO) (http_text kind message : str) :
  opt_download o = Some download ->
  outcome (exchange_of o) = inr response ->
  (opt_verbose o = true ->
   exists request_text,
     format_request_headers (sent (exchange_of o)) = Ok request_text) ->
  format_response_headers response = Ok http_text ->
  length_accepted int response ->
  stream_error response = Some (kind, message) ->
  snd (main' o) = Raise (SystemExit 1)
  /\ written (fst (main' o)) = stream response
  /\ console_lines (fst (main' o)) = [kind ++ ": " ++ message].
Proof.
  intros Hdownload Htop Hecho Htext Hlength Hbroken.
  destruct (download_response_started response download Hlength)
    as [total Hresponse].
  assert (Hblock : stream_block' (opt_download o) response
                   = (ConsolePrintSyntax http_text "http"
                        :: ConsolePrintSyntax "" "http"
                        :: ProgressAddTask ("Downloading [bold]" ++ name download) total
                        :: fst (download_loop download (stream response) 0),
                      Raise (RequestError kind message))).
  { rewrite Hdownload. unfold stream_block.
    rewrite (print_response_headers_ok _ _ Htext), bind_ok, Hresponse.
    unfold transfer_result. rewrite Hbroken. reflexivity. }
  rewrite main_after_with, (main_when_block_raises _ _ _ _ Htop Hecho Hblock).
  cbn [fst snd]. split; [reflexivity|].
  pose proof (download_events_no_lines _
                (only_download_loop download (stream response) 0)) as Hlines.
  pose proof (download_loop_written download (stream response) 0) as Hwritten.
  destruct (echo_of_quiet (opt_verbose o) (sent (exchange_of o)))
    as [Hecho_written Hecho_lines].
  split.
  - cbn [app written]. rewrite !written_app, Hecho_written.
    cbn [app written]. rewrite Hwritten. apply app_nil_r.
  - cbn [app console_lines]. rewrite !console_lines_app, Hecho_lines.
    cbn [app console_lines]. rewrite Hlines. reflexivity.
Qed.

(** X8: a response with a header name or value that is not ASCII makes
    [main] end with an uncaught [UnicodeDecodeError] right after the call
    (and the echo of the request in verbose mode): nothing of the response is
    printed, not even its status line, nothing is written, and [main] does
    not reach [sys.exit]. *)
Theorem non_ascii_header_ends_main (o : Options) (response : Response) :
  outcome (exchange_of o) = inr response ->
  (opt_verbose o = true ->
   exists request_text,
     format_request_headers (sent (exchange_of o)) = Ok request_text) ->
  printable response = false ->
  main' o
  = ((ClientStream (client_config o) (stream_call o)
        :: echo_of (opt_verbose o) (sent (exchange_of o)))%list,
     Raise UnicodeDecodeError).
Proof.
  intros Htop Hecho Hheaders.
  assert (Hblock : stream_block' (opt_download o) response
                   = ([], Raise UnicodeDecodeError)).
  { unfold stream_block, print_response_headers, format_response_headers.
    unfold printable in Hheaders. now rewrite (header_lines_error _ Hheaders). }
  rewrite main_after_with, (main_when_block_raises _ _ _ _ Htop Hecho Hblock).
  now rewrite app_nil_r.
Qed.

(** ** Runs of [main] that complete *)

(** The [with] statement when the block returns and redirects are not
    followed. *)
Lemma with_stream_when_block_returns (o : Options) (response : Response)
  (t : Trace) :
  opt_follow_redirects o = false ->
  outcome (exchange_of o) = inr response ->
  (opt_verbose o = true ->
   exists http_text, format_request_headers (sent (exchange_of o)) = Ok http_text) ->
  stream_block' (opt_download o) response = (t, Ok tt) ->
  with_stream o
  = ((ClientStream (client_config o) (stream_call o)
        :: echo_of (opt_verbose o) (sent (exchange_of o)) ++ t)%list, Ok response).
Proof.
  intros Hfollow Htop Hecho Hblock. rewrite client_stream_phases. cbv zeta.
  rewrite (request_hooks_run _ _ _ _ Hecho), Htop, Hblock, Hfollow.
  rewrite no_response_hooks. now rewrite app_nil_r.
Qed.

(** X9: a download that runs to its end (redirects not followed, no
    Content-Length) shows the response headers and the delimiter, then only
    feeds the progress task and the file: the body is never printed, the file
    holds it exactly as received, and [main] exits on the status of the
    response. *)
Theorem download_saves_body (o : Options) (response : Response)
  (download : BinaryIO) (http_text : str) :
  opt_download o = Some download ->
  opt_follow_redirects o = false ->
  outcome (exchange_of o) = inr response ->
  (opt_verbose o = true ->
   exists request_text,
     format_request_headers (sent (exchange_of o)) = Ok request_text) ->
  format_response_headers response = Ok http_text ->
  no_content_length response ->
  stream_error response = None ->
  main' o
  = ((ClientStream (client_config o) (stream_call o)
        :: echo_of (opt_verbose o) (sent (exchange_of o))
        ++ ConsolePrintSyntax http_text "http"
        :: ConsolePrintSyntax "" "http"
        :: ProgressAddTask ("Downloading [bold]" ++ name download)%string None
        :: fst (download_loop download (stream response) 0))%list,
     Raise (SystemExit (if is_success response then 0 else 1)))
  /\ file_content (fst (main' o)) = List.concat (stream response)
  /\ console_lines (fst (main' o)) = [].
Proof.
  intros Hdownload Hfollow Htop Hecho Htext Hlength Hstream.
  pose proof (download_response_no_length response download Hlength)
    as Hresponse.
  assert (Hblock : stream_block' (opt_download o) response
                   = (ConsolePrintSyntax http_text "http"
                        :: ConsolePrintSyntax "" "http"
                        :: ProgressAddTask ("Downloading [bold]" ++ name download) None
                        :: fst (download_loop download (stream response) 0),
                      Ok tt)).
  { rewrite Hdownload. unfold stream_block.
    rewrite (print_response_headers_ok _ _ Htext), bind_ok, Hresponse.
    unfold transfer_result. rewrite Hstream. reflexivity. }
  rewrite main_after_with,
    (with_stream_when_block_returns _ _ _ Hfollow Htop Hecho Hblock).
  split; [reflexivity|]. cbn [fst].
  pose proof (download_events_no_lines _
                (only_download_loop download (stream response) 0)) as Hlines.
  pose proof (download_loop_written download (stream response) 0) as Hwritten.
  destruct (echo_of_quiet (opt_verbose o) (sent (exchange_of o)))
    as [Hecho_written Hecho_lines].
  split.
  - unfold file_content. cbn [written]. rewrite written_app, Hecho_written.
    cbn [app written]. now rewrite Hwritten.
  - cbn [console_lines]. rewrite console_lines_app, Hecho_lines.
    cbn [app console_lines]. exact Hlines.
Qed.

(** ** The redirect hook *)

(** X10: [print_redirects] does nothing for a response without a redirect
    location.  For one with a location it reads the body and prints the
    headers and then the body, with no delimiter between them and also when
    the body is empty; if the read fails it raises the [RequestError] before
    printing anything. *)
Theorem print_redirects_cases (response : Response) :
  (has_redirect_location response = false ->
   print_redirects' response = ([], Ok tt))
  /\ (has_redirect_location response = true ->
      forall kind message,
        stream_error response = Some (kind, message) ->
        print_redirects' response = ([], Raise (RequestError kind message)))
  /\ (has_redirect_location response = true ->
      stream_error response = None ->
      forall http_text,
        format_response_headers response = Ok http_text ->
        exists body,
          print_response' response = ([body], Ok tt)
          /\ print_redirects' response
             = ([ConsolePrintSyntax http_text "http"; body], Ok tt)).
Proof.
  unfold print_redirects. split; [|split].
  - intros ->. reflexivity.
  - intros -> kind message Hbroken. unfold read. now rewrite Hbroken.
  - intros -> Hstream http_text Htext. unfold read.
    rewrite Hstream, bind_ret, (print_response_headers_ok _ _ Htext), bind_ok.
    destruct (print_response_total get_lexer_for_mimetype response)
      as [body Hbody].
    exists body. split; [exact Hbody|]. now rewrite Hbody.
Qed.

(** ** Choice of the lexer *)

(** X11: unless the lexer found is the JSON one, [print_response] prints the
    decoded text of the response as it is, highlighted when a lexer was found
    and plain otherwise, and [response.json()] plays no part; without a
    Content-Type header no lexer is found. *)
Theorem print_response_as_text (response : Response) :
  (get (headers response) "Content-Type" = None ->
   print_response' response = ([ConsolePrint (text response)], Ok tt))
  /\ (lower (get_lexer_for_response' response) <> "json" ->
      print_response' response
      = ([if str_truthy (get_lexer_for_response' response)
          then ConsolePrintSyntax (text response) (get_lexer_for_response' response)
          else ConsolePrint (text response)], Ok tt)).
Proof.
  split.
  - intros Hnone. unfold print_response, get_lexer_for_response.
    now rewrite Hnone.
  - intros Hother. unfold print_response.
    destruct (str_truthy (get_lexer_for_response' response)); [|reflexivity].
    unfold response_text.
    destruct (String.eqb_spec (lower (get_lexer_for_response' response)) "json")
      as [Heq|_]; [contradiction|].
    now rewrite bind_lift_ok.
Qed.

(** X12: the lexer is looked up under the media type alone: white space
    around it and everything from the first semicolon on (the parameters,
    such as the charset) are dropped before the lookup; a media type pygments
    does not know gives no lexer. *)
Theorem lexer_ignores_parameters (response : Response) (w1 mime w2 params : str) :
  get (headers response) "Content-Type" = Some (w1 ++ mime ++ w2 ++ ";" ++ params) ->
  all_space w1 = true ->
  all_space w2 = true ->
  before_semicolon mime = mime ->
  get_lexer_for_response' response
  = match get_lexer_for_mimetype (strip mime) with
    | Some lexer_name => lexer_name
    | None => ""
    end.
Proof.
  intros Hget H1 H2 Hmime. unfold get_lexer_for_response. rewrite Hget.
  rewrite (before_semicolon_app w1) by now apply before_semicolon_space.
  rewrite (before_semicolon_app mime) by exact Hmime.
  rewrite (before_semicolon_app w2) by now apply before_semicolon_space.
  cbn [append before_semicolon]. change (Ascii.eqb ";" ";") with true. cbv iota.
  replace (w2 ++ "") with w2.
  - now rewrite (strip_spaces _ _ _ H1 H2).
  - clear. induction w2 as [|c w IH]; cbn; [reflexivity|now rewrite <- IH].
Qed.

End Behaviour.

(** ** What the stream call carries *)

(** X13: form data and cookies go to [client.stream] as dicts: a name given
    several times appears once, with the value given last, while query
    parameters and headers are passed on as the list they came in, repeated
    names included. *)
Theorem repeated_names_last_wins (o : Options) :
  NoDup (map fst (call_data (stream_call o)))
  /\ (forall k, dict_get (call_data (stream_call o)) k = last_value (opt_data o) k)
  /\ NoDup (map fst (call_cookies (stream_call o)))
  /\ (forall k,
        dict_get (call_cookies (stream_call o)) k = last_value (opt_cookies o) k)
  /\ call_params (stream_call o) = opt_params o
  /\ call_headers (stream_call o) = opt_headers o.
Proof.
  cbn [stream_call call_data call_cookies call_params call_headers]. unfold dict.
  destruct (fold_dict_set (opt_data o) [] (NoDup_nil _)) as [Hnodup Hget].
  destruct (fold_dict_set (opt_cookies o) [] (NoDup_nil _)) as [Hnodup' Hget'].
  repeat split; try assumption.
  - intros k. rewrite Hget. now destruct (last_value (opt_data o) k).
  - intros k. rewrite Hget'. now destruct (last_value (opt_cookies o) k).
Qed.

(** X14: what [--json] does to the request.  Text that is not JSON is
    refused; the text "null" parses to [None] and leaves the command as if the
    option were absent; any other text is handed on parsed.  A parsed value
    that is false for Python (0, false, an empty string, list or object) is
    still passed to [client.stream] as the JSON body, but does not count as a
    body when the method is chosen: with nothing else given the method is
    GET. *)
Theorem json_option_and_method (json_loads : str -> option JSON) (text : str) :
  (json_loads text = None ->
   validate_json json_loads (Some text) = BadParameter "Not valid JSON")
  /\ (json_loads text = Some JNull ->
      validate_json json_loads (Some text) = Accepted None)
  /\ (forall data,
        json_loads text = Some data -> data <> JNull ->
        validate_json json_loads (Some text) = Accepted (Some data)
        /\ (json_truthy data = false ->
            forall o : Options,
              opt_json o = Some data ->
              opt_truthy str_truthy (opt_method o) = false ->
              opt_truthy str_truthy (opt_content o) = false ->
              opt_data o = [] ->
              opt_files o = [] ->
              call_method (stream_call o) = "GET"
              /\ call_json (stream_call o) = Some data)).
Proof.
  unfold validate_json. split; [|split].
  - intros ->. reflexivity.
  - intros ->. reflexivity.
  - intros data -> Hnull. split.
    + destruct data; try reflexivity. contradiction.
    + intros Hfalse o Hjson Hmethod Hcontent Hdata Hfiles.
      cbn [stream_call call_method call_json]. split; [|exact Hjson].
      assert (Hdefault : default_method (opt_content o) (opt_data o)
                           (opt_files o) (opt_json o) = "GET").
      { unfold default_method.
        rewrite Hcontent, Hdata, Hfiles, Hjson. cbn. now rewrite Hfalse. }
      unfold resolve_method.
      destruct (opt_method o) as [m|]; cbn [opt_truthy] in Hmethod.
      * now rewrite Hmethod.
      * exact Hdefault.
Qed.

(** ** Headers that are not ASCII *)

(** X15: a byte above 0x7f in any header name or value makes both
    formatters raise [UnicodeDecodeError], and so does such a byte in the
    target of a request; the printing functions then print nothing at all,
    not even the request or status line. *)
Theorem non_ascii_headers_raise (hs : list (bytes * bytes)) :
  forallb ascii_header hs = false ->
  (forall request,
     raw (request_headers request) = hs ->
     format_request_headers request = Raise UnicodeDecodeError
     /\ print_request_headers request = ([], Raise UnicodeDecodeError))
  /\ (forall response,
        raw (headers response) = hs ->
        format_response_headers response = Raise UnicodeDecodeError
        /\ print_response_headers response = ([], Raise UnicodeDecodeError))
  /\ (forall request,
        is_ascii (url_raw_last (url request)) = false ->
        format_request_headers request = Raise UnicodeDecodeError).
Proof.
  intros Hhs. split; [|split].
  - intros request Hraw.
    assert (H : format_request_headers request = Raise UnicodeDecodeError).
    { unfold format_request_headers.
      destruct (is_ascii (url_raw_last (url request))) eqn:Htarget.
      - rewrite (decode_ascii_ok _ Htarget), Hraw, (header_lines_error _ Hhs).
        reflexivity.
      - now rewrite (decode_ascii_error _ Htarget). }
    split; [exact H|]. unfold print_request_headers. now rewrite H.
  - intros response Hraw.
    assert (H : format_response_headers response = Raise UnicodeDecodeError).
    { unfold format_response_headers.
      now rewrite Hraw, (header_lines_error _ Hhs). }
    split; [exact H|]. unfold print_response_headers. now rewrite H.
  - intros request Htarget. unfold format_request_headers.
    now rewrite (decode_ascii_error _ Htarget).
Qed.

(** ** The hooks *)

(** X16: without [--verbose] and [--follow-redirects] no hook is
    registered: [main] never looks at the request the client built nor at the
    responses of a redirect chain, so two transports that give the same
    outcome for the call give the same run. *)
Theorem hooks_off_same_run (get_lexer_for_mimetype : str -> option str)
  (int : str -> option Z) (transport1 transport2 : Transport) (o : Options) :
  opt_verbose o = false ->
  opt_follow_redirects o = false ->
  outcome (transport1 (client_config o) (stream_call o))
  = outcome (transport2 (client_config o) (stream_call o)) ->
  main get_lexer_for_mimetype int transport1 o
  = main get_lexer_for_mimetype int transport2 o.
Proof.
  intros Hverbose Hfollow Houtcome.
  rewrite !main_after_with, !client_stream_phases. cbv zeta.
  rewrite Hverbose, Hfollow, Houtcome, !no_response_hooks.
  reflexivity.
Qed.

(** ** The further statements at the sample inputs *)

Lemma no_download_only_console_witness :
  written (fst (main Examples.lexers Examples.int
                  (Examples.answers Examples.moved
                     [Examples.moved; Examples.not_found])
                  (Examples.options None None None true false None true))) = []
  /\ reports (fst (main Examples.lexers Examples.int
                     (Examples.answers Examples.moved
                        [Examples.moved; Examples.not_found])
                     (Examples.options None None None true false None true))) = [].
Proof.
  destruct (no_download_only_console Examples.lexers Examples.int
              (Examples.answers Examples.moved
                 [Examples.moved; Examples.not_found])
              (Examples.options None None None true false None true) eq_refl)
    as (rest & _ & _ & Hwritten & Hreports).
  split; assumption.
Defined.

Lemma main_endings_witness :
  snd (main Examples.lexers Examples.int
         (Examples.answers Samples.odd_length [])
         (Examples.options None None None false false (Some Examples.out_bin) false))
  = Raise ValueError
  /\ passes_through (Some Examples.out_bin) ValueError.
Proof.
  split; [reflexivity|].
  destruct (main_endings Examples.lexers Examples.int
              (Examples.answers Samples.odd_length [])
              (Examples.options None None None false false
                 (Some Examples.out_bin) false))
    as (_ & Hends & _).
  destruct (Hends ValueError eq_refl) as [H|[H|H]]; [discriminate H|discriminate H|].
  exact H.
Defined.

Lemma download_without_content_length_witness :
  no_content_length Examples.not_found
  /\ written (fst (download_response Examples.int Examples.not_found
                     Examples.out_bin))
     = [Examples.b "<h1>gone</h1>"].
Proof.
  assert (H : no_content_length Examples.not_found) by (left; reflexivity).
  split; [exact H|].
  destruct (download_without_content_length Examples.int Examples.not_found
              Examples.out_bin H) as [_ Hwritten].
  exact Hwritten.
Defined.

Lemma download_content_length_witness :
  download_response Examples.int Samples.odd_length Examples.out_bin
  = ([ConsolePrintSyntax "" "http"], Raise ValueError)
  /\ download_response Examples.int Examples.three_chunks Examples.out_bin
     = (ConsolePrintSyntax "" "http"
          :: ProgressAddTask "Downloading [bold]out.bin" (Some 6%Z)
          :: fst (download_loop Examples.out_bin (stream Examples.three_chunks) 0),
        Ok tt).
Proof.
  split.
  - destruct (download_content_length Examples.int Samples.odd_length
                Examples.out_bin "many" eq_refl) as [Hrejected _];
      [discriminate|].
    exact (Hrejected eq_refl).
  - destruct (download_content_length Examples.int Examples.three_chunks
                Examples.out_bin "6" eq_refl) as [_ Haccepted];
      [discriminate|].
    exact (Haccepted 6%Z eq_refl).
Defined.

Lemma broken_transfer_report_witness :
  status_code Samples.cut_short = 200%Z
  /\ main Examples.lexers Examples.int
       (Examples.answers Samples.cut_short [])
       (Examples.options None None None false false None false)
     = ([ClientStream
           (client_config (Examples.options None None None false false None false))
           (stream_call (Examples.options None None None false false None false));
         ConsolePrintSyntax
           (join nl ["HTTP/1.1 200 OK"; "Content-Type: text/html"]) "http";
         ConsolePrint "ReadTimeout: timed out"],
        Raise (SystemExit 1)).
Proof.
  split; [reflexivity|].
  rewrite (broken_transfer_report Examples.lexers Examples.int
             (Examples.answers Samples.cut_short [])
             (Examples.options None None None false false None false)
             Samples.cut_short _ "ReadTimeout" "timed out"
             eq_refl eq_refl (fun H => False_ind _ (Bool.diff_false_true H))
             eq_refl eq_refl).
  reflexivity.
Defined.

Lemma broken_download_keeps_chunks_witness :
  get (headers Samples.cut_short_of_six) "Content-Length" = Some "6"
  /\ written (fst (main Examples.lexers Examples.int
                     (Examples.answers Samples.cut_short_of_six [])
                     (Examples.options None None None false false
                        (Some Examples.out_bin) false)))
     = [Examples.b "abc"]
  /\ snd (main Examples.lexers Examples.int
            (Examples.answers Samples.cut_short_of_six [])
            (Examples.options None None None false false
               (Some Examples.out_bin) false))
     = Raise (SystemExit 1).
Proof.
  split; [reflexivity|].
  assert (Haccepted : length_accepted Examples.int Samples.cut_short_of_six).
  { intros s Hget _ Hint. vm_compute in Hget. injection Hget as <-.
    vm_compute in Hint. discriminate Hint. }
  destruct (broken_download_keeps_chunks Examples.lexers Examples.int
              (Examples.answers Samples.cut_short_of_six [])
              (Examples.options None None None false false
                 (Some Examples.out_bin) false)
              Samples.cut_short_of_six Examples.out_bin _ "ReadError" "reset"
              eq_refl eq_refl (fun H => False_ind _ (Bool.diff_false_true H))
              eq_refl Haccepted eq_refl)
    as (Hexit & Hwritten & _).
  split; assumption.
Defined.

Lemma non_ascii_header_ends_main_witness :
  main Examples.lexers Examples.int
    (Examples.answers Examples.latin1_header [])
    (Examples.options None None None false false None false)
  = ([ClientStream
        (client_config (Examples.options None None None false false None false))
        (stream_call (Examples.options None None None false false None false))],
     Raise UnicodeDecodeError).
Proof.
  rewrite (non_ascii_header_ends_main Examples.lexers Examples.int
             (Examples.answers Examples.latin1_header [])
             (Examples.options None None None false false None false)
             Examples.latin1_header eq_refl
             (fun H => False_ind _ (Bool.diff_false_true H)) eq_refl).
  reflexivity.
Defined.

Lemma download_saves_body_witness :
  file_content (fst (main Examples.lexers Examples.int
                       (Examples.answers Examples.not_found [Examples.moved])
                       (Examples.options None None None false false
                          (Some Examples.out_bin) false)))
  = Examples.b "<h1>gone</h1>"
  /\ console_lines (fst (main Examples.lexers Examples.int
                           (Examples.answers Examples.not_found [Examples.moved])
                           (Examples.options None None None false false
                              (Some Examples.out_bin) false)))
     = [].
Proof.
  destruct (download_saves_body Examples.lexers Examples.int
              (Examples.answers Examples.not_found [Examples.moved])
              (Examples.options None None None false false
                 (Some Examples.out_bin) false)
              Examples.not_found Examples.out_bin _
              eq_refl eq_refl eq_refl
              (fun H => False_ind _ (Bool.diff_false_true H))
              eq_refl (or_introl eq_refl) eq_refl)
    as (_ & Hfile & Hlines).
  split; [|exact Hlines]. rewrite Hfile. reflexivity.
Defined.

Lemma print_redirects_cases_witness :
  print_redirects Examples.lexers Examples.ok_json = ([], Ok tt)
  /\ print_redirects Examples.lexers Samples.found
     = ([ConsolePrintSyntax (join nl ["HTTP/1.1 302 Found"; "Location: /z"]) "http";
         ConsolePrint ""], Ok tt).
Proof.
  split.
  - destruct (print_redirects_cases Examples.lexers Examples.ok_json) as (H & _).
    exact (H eq_refl).
  - destruct (print_redirects_cases Examples.lexers Samples.found) as (_ & _ & H).
    destruct (H eq_refl eq_refl _ eq_refl) as (body & Hbody & Hprinted).
    rewrite Hprinted. vm_compute in Hbody. injection Hbody as <-. reflexivity.
Defined.

Lemma print_response_as_text_witness :
  print_response Examples.lexers Examples.not_found
  = ([ConsolePrintSyntax "<h1>gone</h1>" "HTML"], Ok tt)
  /\ print_response Examples.lexers Examples.moved
     = ([ConsolePrint ""], Ok tt).
Proof.
  split.
  - destruct (print_response_as_text Examples.lexers Examples.not_found)
      as (_ & H).
    rewrite H; [reflexivity|]. vm_compute. discriminate.
  - destruct (print_response_as_text Examples.lexers Examples.moved) as (H & _).
    exact (H eq_refl).
Defined.

Lemma lexer_ignores_parameters_witness :
  get_lexer_for_response Examples.lexers Samples.spaced_json = "JSON".
Proof.
  rewrite (lexer_ignores_parameters Examples.lexers Samples.spaced_json
             " " "application/json" " " "charset=utf-8"
             eq_refl eq_refl eq_refl eq_refl).
  reflexivity.
Defined.

Lemma repeated_names_last_wins_witness :
  call_data (stream_call (Samples.with_data [("a", "1"); ("b", "2"); ("a", "3")]
                            [("s", "x"); ("s", "y")]))
  = [("a", "3"); ("b", "2")]
  /\ dict_get (call_data (stream_call
                            (Samples.with_data [("a", "1"); ("b", "2"); ("a", "3")]
                               [("s", "x"); ("s", "y")]))) "a"
     = Some "3".
Proof.
  split; [reflexivity|].
  destruct (repeated_names_last_wins
              (Samples.with_data [("a", "1"); ("b", "2"); ("a", "3")]
                 [("s", "x"); ("s", "y")]))
    as (_ & Hget & _).
  rewrite Hget. reflexivity.
Defined.

Lemma json_option_and_method_witness :
  validate_json Samples.loads (Some "null") = Accepted None
  /\ validate_json Samples.loads (Some "{") = BadParameter "Not valid JSON"
  /\ validate_json Samples.loads (Some "{}") = Accepted (Some (JDict []))
  /\ call_method (stream_call (Examples.options None None (Some (JDict []))
                                 false false None false)) = "GET"
  /\ call_json (stream_call (Examples.options None None (Some (JDict []))
                               false false None false)) = Some (JDict []).
Proof.
  split; [|split].
  - destruct (json_option_and_method Samples.loads "null") as (_ & H & _).
    exact (H eq_refl).
  - destruct (json_option_and_method Samples.loads "{") as (H & _).
    exact (H eq_refl).
  - destruct (json_option_and_method Samples.loads "{}") as (_ & _ & H).
    destruct (H (JDict []) eq_refl) as [Haccepted Hmethod]; [discriminate|].
    split; [exact Haccepted|].
    exact (Hmethod eq_refl
             (Examples.options None None (Some (JDict [])) false false None false)
             eq_refl eq_refl eq_refl eq_refl eq_refl).
Defined.

Lemma non_ascii_headers_raise_witness :
  format_response_headers Examples.latin1_header = Raise UnicodeDecodeError
  /\ print_response_headers Examples.latin1_header = ([], Raise UnicodeDecodeError).
Proof.
  destruct (non_ascii_headers_raise (raw (headers Examples.latin1_header)) eq_refl)
    as (_ & H & _).
  exact (H Examples.latin1_header eq_refl).
Defined.

Lemma hooks_off_same_run_witness :
  main Examples.lexers Examples.int
    (Examples.answers Examples.moved [Examples.moved; Examples.not_found])
    (Examples.options None None None false false None false)
  = main Examples.lexers Examples.int
      (Examples.answers Examples.moved [])
      (Examples.options None None None false false None false).
Proof.
  apply (hooks_off_same_run Examples.lexers Examples.int
           (Examples.answers Examples.moved [Examples.moved; Examples.not_found])
           (Examples.answers Examples.moved [])
           (Examples.options None None None false false None false));
    reflexivity.
Defined.
